(** * Articy importer for Unreal: a shallow embedding of the editor plugin

    The development follows the plugin's sources:
    - [CodeGen]: [GlobalVarsGenerator::GenerateCode], as the tree of calls it
      makes on the [CodeFileGenerator] it is handed;
    - [PluginSettings]: [UArticyPluginSettings::UpdatePackageSettings] over
      the [PackageLoadSettings] map;
    - [EditorModule]: [FArticyEditorModule], its start-up registrations, the
      import status check, the generated-code callback and the import queue;
    - [ToolTip]: [SArticyObjectToolTip::CreateToolTipContent];
    - [SettingsCustomization]:
      [FArticyPluginSettingsCustomization::CustomizeDetails].

    Engine services (asset registry, module manager, Slate) are represented
    by the values they hand back and by the calls the plugin makes on them. *)

From Stdlib Require Import ZArith Ascii.
From stdpp Require Import gmap strings list fin_maps.

Local Open Scope string_scope.
Local Open Scope list_scope.

(** [FString] is modelled by [string]; [dq] is the double-quote character
    that the sources write as an escaped quote inside [TEXT(...)]. *)
Abbreviation FString := string.

Definition dq : FString := String "034"%char EmptyString.

(** [FString::operator==] compares without regard to letter case, and so do
    the containers that match [FString] elements or keys with it
    ([TArray::Contains], [TMap]).  [ToLower] folds the letters A-Z of the
    characters modelled; two strings are equal for the engine when their
    folded forms coincide. *)
Definition ToLowerChar (c : ascii) : ascii :=
  let n := nat_of_ascii c in
  if ((65 <=? n) && (n <=? 90))%nat then ascii_of_nat (n + 32) else c.

Fixpoint ToLower (s : FString) : FString :=
  match s with
  | EmptyString => EmptyString
  | String c s' => String (ToLowerChar c) (ToLower s')
  end.

Definition FString_eq (a b : FString) : Prop := ToLower a = ToLower b.

#[global] Instance FString_eq_dec : RelDecision FString_eq :=
  λ a b, decide (ToLower a = ToLower b).

#[global] Instance FString_eq_equivalence : Equivalence FString_eq.
Proof.
  split.
  - intros a. reflexivity.
  - intros a b H. unfold FString_eq in *. congruence.
  - intros a b c H1 H2. unfold FString_eq in *. congruence.
Defined.

(* ===================================================================== *)
(** ** The import data read by the generators (ArticyImportData.h)       *)
(* ===================================================================== *)

Inductive EArticyType : Type :=
| ADT_Boolean
| ADT_Integer
| ADT_String
| ADT_MultiLanguageString.

(** [struct FArticyGVar] *)
Record FArticyGVar : Type := {
  Variable_ : FString;            (* the field is called [Variable] in C++ *)
  Type_ : EArticyType;
  Description : FString;
  BoolValue : bool;
  IntValue : Z;
  StringValue : FString
}.

(** [struct FArticyGVNamespace] *)
Record FArticyGVNamespace : Type := {
  Namespace : FString;
  NsDescription : FString;
  Variables : list FArticyGVar;
  CppTypename : FString
}.

(** [struct FArticyGVInfo] *)
Record FArticyGVInfo : Type := {
  Namespaces : list FArticyGVNamespace
}.

(** [struct FArticyProjectDef] *)
Record FArticyProjectDef : Type := {
  Name : FString;
  DetailName : FString;
  Guid : FString;
  TechnicalName : FString
}.

(** [class UArticyImportData], restricted to the members the generator can
    reach: the project definition (read by the class-name helper) and the
    global variables. *)
Record UArticyImportData : Type := {
  Project : FArticyProjectDef;
  GlobalVariables : FArticyGVInfo
}.

Definition GetProject (Data : UArticyImportData) : FArticyProjectDef := Project Data.
Definition GetGlobalVars (Data : UArticyImportData) : FArticyGVInfo := GlobalVariables Data.

(* ===================================================================== *)
(** ** GlobalVarsGenerator.cpp                                           *)
(* ===================================================================== *)

Module CodeGen.

(** The calls that [GenerateCode] makes on the [CodeFileGenerator].  The
    class itself is outside the verified sources, so no rendering to text is
    assumed: a call is recorded with the arguments written at the call site,
    optional trailing arguments as [option], and the content lambdas of
    [Class] and [Method] as the calls made while they run. *)
#[warnings="-register-all"]
Inductive Call : Type :=
| CLine (Line : option FString) (Format : option (bool * bool * Z))
| CComment (Text : FString)
| CVariable (Type_ Name Value Comment : FString) (bUProperty : bool)
            (UPropertySpecifiers : FString)
| CMethod (ReturnType Name Params : FString) (Definition_ : list Call)
          (Trailer : option (FString * bool * FString))
| CClass (Classname Comment : FString) (bUClass : bool) (Content : list Call).

(** A piece of generator code: it appends calls to those made so far. *)
Definition Gen : Type := list Call → list Call.

Definition skip : Gen := λ h, h.
Definition seq (a b : Gen) : Gen := λ h, b (a h).

Declare Scope gen_scope.
Delimit Scope gen_scope with gen.
Bind Scope gen_scope with Gen.
Notation "a ;; b" := (seq a b) (at level 100, b at level 200, right associativity) : gen_scope.

(** The methods of the generator object, named as at the call sites
    ([header->Line(...)] is [header.Line ...]). [Line] comes in the three
    shapes the generator uses. *)
Module header.

Definition Line0 : Gen := λ h, h ++ [CLine None None].
Definition Line (s : FString) : Gen := λ h, h ++ [CLine (Some s) None].
Definition Line4 (s : FString) (bSemicolon bIndent : bool) (IndentOffset : Z) : Gen :=
  λ h, h ++ [CLine (Some s) (Some (bSemicolon, bIndent, IndentOffset))].

Definition Comment (s : FString) : Gen := λ h, h ++ [CComment s].

Definition Variable_ (ty name value comment : FString) (bUProperty : bool)
    (specifiers : FString) : Gen :=
  λ h, h ++ [CVariable ty name value comment bUProperty specifiers].

(** [Class] and [Method] run their content lambda on the same generator;
    the calls it makes are the children of the class or method node. *)
Definition Class (classname comment : FString) (bUClass : bool) (content : Gen) : Gen :=
  λ h, h ++ [CClass classname comment bUClass (content [])].

Definition Method (ret name params : FString) (definition : Gen)
    (trailer : option (FString * bool * FString)) : Gen :=
  λ h, h ++ [CMethod ret name params (definition []) trailer].

End header.

(** A range-based [for] loop whose body only talks to the generator. *)
Fixpoint for_each {A : Type} (xs : list A) (body : A → Gen) : Gen :=
  match xs with
  | [] => skip
  | x :: xs' => (body x ;; for_each xs' body)%gen
  end.

(** A file written by constructing a [CodeFileGenerator]. *)
Record CodeFile : Type := {
  Path : FString;
  bHeader : bool;
  Calls : list Call
}.

Definition CodeFileGenerator (path : FString) (header : bool) (content : Gen) : CodeFile :=
  {| Path := path; bHeader := header; Calls := content [] |}.

(** [ensure(p)]: true exactly when the pointer is not null. *)
Definition ensure {A : Type} (p : option A) : bool :=
  match p with Some _ => true | None => false end.

(** [FString::Printf] for the formats the generator uses: each [%s] is
    replaced by the next argument, every other character is copied. *)
Fixpoint Printf (fmt : FString) (args : list FString) : FString :=
  match fmt with
  | EmptyString => EmptyString
  | String c tl =>
      match c, tl with
      | "%"%char, String "s"%char rest =>
          match args with
          | a :: args' => a +:+ Printf rest args'
          | [] => Printf rest []
          end
      | _, _ => String c (Printf tl args)
      end
  end.

Section Generator.

(** Helpers declared in headers of the plugin whose bodies are not among the
    verified sources; the generator only splices their results. *)
Variable GetGlobalVarsClassname : UArticyImportData → bool → FString.
Variable GetCPPTypeString : FArticyGVar → FString.
Variable GetCPPValueString : FArticyGVar → FString.

Definition PS_GUARD : FString :=
  "#if !((defined(PLATFORM_PS4) && PLATFORM_PS4) || (defined(PLATFORM_PS5) && PLATFORM_PS5))".

Definition CategoryFormat : FString :=
  "VisibleAnywhere, BlueprintReadOnly, Category=" +:+ dq +:+ "%s" +:+ dq.

Definition CreateDefaultSubobjectFormat : FString :=
  "%s = CreateDefaultSubobject<%s>(" +:+ dq +:+ "%s" +:+ dq +:+ ");".

Definition InitVariableFormat : FString :=
  "%s->Init<%s>(this, Store, TEXT(" +:+ dq +:+ "%s.%s" +:+ dq +:+ "), %s);".

(** The body of the per-namespace loop (lines 42-75). *)
Definition NamespaceClass (ns : FArticyGVNamespace) : Gen :=
  (header.Line0 ;;
   header.Class (CppTypename ns +:+ " : public UArticyBaseVariableSet") (NsDescription ns) true
     (header.Line4 "public:" false true (-1) ;;
      for_each (Variables ns) (λ var,
        header.Variable_ (GetCPPTypeString var +:+ "*") (Variable_ var) "nullptr"
          (Description var) true (Printf CategoryFormat [Namespace ns])) ;;
      header.Line0 ;;
      header.Method "" (CppTypename ns) ""
        (for_each (Variables ns) (λ var,
           header.Line (Printf CreateDefaultSubobjectFormat
                          [Variable_ var; GetCPPTypeString var; Variable_ var])))
        None ;;
      header.Line0 ;;
      header.Method "void" "Init" "UArticyGlobalVariables* const Store"
        (header.Comment "initialize the variables" ;;
         for_each (Variables ns) (λ var,
           header.Line (Printf InitVariableFormat
                          [Variable_ var; GetCPPTypeString var; Namespace ns; Variable_ var;
                           GetCPPValueString var]) ;;
           header.Line (Printf "this->Variables.Add(%s);" [Variable_ var])))
        None))%gen.

Definition GetDefaultSpecifiers : FString :=
  "BlueprintPure, Category=" +:+ dq +:+ "ArticyGlobalVariables" +:+ dq
  +:+ ", meta=(HidePin=" +:+ dq +:+ "WorldContext" +:+ dq
  +:+ ", DefaultToSelf=" +:+ dq +:+ "WorldContext" +:+ dq
  +:+ ", DisplayName=" +:+ dq +:+ "GetArticyGV" +:+ dq
  +:+ ", keywords=" +:+ dq +:+ "global variables" +:+ dq +:+ ")".

(** The [UArticyGlobalVariables] subclass (lines 81-127). *)
Definition GlobalVarsClass (Data : UArticyImportData) : Gen :=
  let type := GetGlobalVarsClassname Data false in
  let nss := Namespaces (GetGlobalVars Data) in
  (header.Class (type +:+ " : public UArticyGlobalVariables") "Global Articy Variables" true
     (header.Line4 "public:" false true (-1) ;;
      for_each nss (λ ns,
        header.Variable_ (CppTypename ns +:+ "*") (Namespace ns) "nullptr" (NsDescription ns)
          true (Printf CategoryFormat [Namespace ns])) ;;
      header.Line0 ;;
      header.Method "" type ""
        (header.Comment "create the namespaces" ;;
         for_each nss (λ ns,
           header.Line (Printf CreateDefaultSubobjectFormat
                          [Namespace ns; CppTypename ns; Namespace ns])) ;;
         header.Line0 ;;
         header.Line "Init();")
        None ;;
      header.Line0 ;;
      header.Method "void" "Init" ""
        (header.Comment "initialize the namespaces" ;;
         for_each nss (λ ns,
           header.Line (Printf "%s->Init(this);" [Namespace ns]) ;;
           header.Line (Printf "this->VariableSets.Add(%s);" [Namespace ns])))
        None ;;
      header.Line0 ;;
      header.Method ("static " +:+ type +:+ "*") "GetDefault" "const UObject* WorldContext"
        (header.Line ("return static_cast<" +:+ type
                      +:+ "*>(UArticyGlobalVariables::GetDefault(WorldContext));"))
        (Some ("Get the default GlobalVariables (a copy of the asset).", true,
               GetDefaultSpecifiers))))%gen.

(** The lambda handed to the [CodeFileGenerator] (lines 27-132); [OutFile]
    is captured by reference and already holds the class name. *)
Definition HeaderContent (Data : UArticyImportData) (OutFile : FString) : Gen :=
  (header.Line ("#include " +:+ dq +:+ "CoreUObject.h" +:+ dq) ;;
   header.Line ("#include " +:+ dq +:+ "ArticyGlobalVariables.h" +:+ dq) ;;
   header.Line ("#include " +:+ dq +:+ OutFile +:+ ".generated.h" +:+ dq) ;;
   header.Line PS_GUARD ;;
   header.Line "#pragma warning(push)" ;;
   header.Line ("#pragma warning(disable: 4883) //<disable " +:+ dq
                +:+ "optimization cannot be applied due to function size" +:+ dq
                +:+ " compile error.") ;;
   header.Line "#endif" ;;
   for_each (Namespaces (GetGlobalVars Data)) NamespaceClass ;;
   header.Line0 ;;
   GlobalVarsClass Data ;;
   header.Line PS_GUARD ;;
   header.Line "#pragma warning(pop)" ;;
   header.Line "#endif")%gen.

(** [void GlobalVarsGenerator::GenerateCode(const UArticyImportData* Data,
    FString& OutFile)]: the result is the new value of [OutFile] and the
    code files written. *)
Definition GenerateCode (Data : option UArticyImportData) (OutFile : FString)
    : FString * list CodeFile :=
  if negb (ensure Data) then (OutFile, [])
  else
    match Data with
    | None => (OutFile, [])
    | Some D =>
        let OutFile := GetGlobalVarsClassname D true in
        (OutFile, [CodeFileGenerator (OutFile +:+ ".h") true (HeaderContent D OutFile)])
    end.

End Generator.

(** *** Reading a generated header back *)

Record ClassNode : Type := {
  Classname : FString;
  ClassComment : FString;
  bUClass : bool;
  Content : list Call
}.

Record VariableNode : Type := {
  VarType : FString;
  VarName : FString;
  VarValue : FString;
  VarComment : FString;
  bUProperty : bool;
  UPropertySpecifiers : FString
}.

Record MethodNode : Type := {
  ReturnType : FString;
  MethodName : FString;
  Params : FString;
  Body : list Call
}.

(** The classes, member variables and methods among a list of calls, in
    the order they were emitted. *)
Definition classes (cs : list Call) : list ClassNode :=
  omap (λ c, match c with
             | CClass n cm u body =>
                 Some {| Classname := n; ClassComment := cm; bUClass := u; Content := body |}
             | _ => None
             end) cs.

Definition variables (cs : list Call) : list VariableNode :=
  omap (λ c, match c with
             | CVariable ty n v cm u sp =>
                 Some {| VarType := ty; VarName := n; VarValue := v; VarComment := cm;
                         bUProperty := u; UPropertySpecifiers := sp |}
             | _ => None
             end) cs.

Definition methods (cs : list Call) : list MethodNode :=
  omap (λ c, match c with
             | CMethod r n ps body _ =>
                 Some {| ReturnType := r; MethodName := n; Params := ps; Body := body |}
             | _ => None
             end) cs.

(** The text lines among a list of calls (comments and blank lines are
    skipped). *)
Definition lines (cs : list Call) : list FString :=
  omap (λ c, match c with CLine (Some s) _ => Some s | _ => None end) cs.

(** A [UPROPERTY] member that is a pointer to [ty], named [name]. *)
Definition IsUPropertyPointer (ty name : FString) (v : VariableNode) : Prop :=
  VarType v = ty +:+ "*" ∧ VarName v = name ∧ bUProperty v = true.

(** [name = CreateDefaultSubobject<ty>("name");] *)
Definition CreateDefaultSubobjectLine (name ty : FString) : FString :=
  name +:+ " = CreateDefaultSubobject<" +:+ ty +:+ ">(" +:+ dq +:+ name +:+ dq +:+ ");".

(** A piece of generator code that leaves the calls made before it alone. *)
Definition Appends (g : Gen) : Prop := ∀ h, g h = h ++ g [].

Section Shape.

Variable GetGlobalVarsClassname : UArticyImportData → bool → FString.
Variable GetCPPTypeString : FArticyGVar → FString.
Variable GetCPPValueString : FArticyGVar → FString.

(** [var->Init<ty>(this, Store, TEXT("ns.var"), value);] *)
Definition InitVariableLine (ns : FArticyGVNamespace) (var : FArticyGVar) : FString :=
  Variable_ var +:+ "->Init<" +:+ GetCPPTypeString var +:+ ">(this, Store, TEXT(" +:+ dq
  +:+ Namespace ns +:+ "." +:+ Variable_ var +:+ dq +:+ "), " +:+ GetCPPValueString var
  +:+ ");".

(** The class generated for a namespace: derived from
    [UArticyBaseVariableSet], one [UPROPERTY] pointer per variable, a
    constructor with one [CreateDefaultSubobject] line per variable, and an
    [Init] method with one [Init] call and one [Variables.Add] call per
    variable. *)
Definition IsNamespaceClass (ns : FArticyGVNamespace) (c : ClassNode) : Prop :=
  Classname c = CppTypename ns +:+ " : public UArticyBaseVariableSet" ∧
  bUClass c = true ∧
  Forall2 (λ var v, IsUPropertyPointer (GetCPPTypeString var) (Variable_ var) v)
          (Variables ns) (variables (Content c)) ∧
  ∃ ctor init,
    methods (Content c) = [ctor; init] ∧
    MethodName ctor = CppTypename ns ∧ ReturnType ctor = EmptyString ∧
    lines (Body ctor) =
      (λ var, CreateDefaultSubobjectLine (Variable_ var) (GetCPPTypeString var))
        <$> Variables ns ∧
    MethodName init = "Init" ∧ ReturnType init = "void" ∧
    lines (Body init) =
      Variables ns ≫= λ var,
        [InitVariableLine ns var; "this->Variables.Add(" +:+ Variable_ var +:+ ");"].

(** The class generated last: derived from [UArticyGlobalVariables], one
    pointer per namespace, a constructor that creates each namespace
    subobject and then calls [Init()], and an [Init] method that initialises
    each namespace and adds it to [VariableSets]. *)
Definition IsGlobalVariablesClass (Data : UArticyImportData) (c : ClassNode) : Prop :=
  let type := GetGlobalVarsClassname Data false in
  let nss := Namespaces (GetGlobalVars Data) in
  Classname c = type +:+ " : public UArticyGlobalVariables" ∧
  bUClass c = true ∧
  Forall2 (λ ns v, IsUPropertyPointer (CppTypename ns) (Namespace ns) v)
          nss (variables (Content c)) ∧
  ∃ ctor init getDefault,
    methods (Content c) = [ctor; init; getDefault] ∧
    MethodName ctor = type ∧ ReturnType ctor = EmptyString ∧
    lines (Body ctor) =
      ((λ ns, CreateDefaultSubobjectLine (Namespace ns) (CppTypename ns)) <$> nss)
      ++ ["Init();"] ∧
    MethodName init = "Init" ∧ ReturnType init = "void" ∧
    lines (Body init) =
      (nss ≫= λ ns,
         [Namespace ns +:+ "->Init(this);";
          "this->VariableSets.Add(" +:+ Namespace ns +:+ ");"]) ∧
    MethodName getDefault = "GetDefault".

End Shape.

(** *** A small project, for examples

    One namespace [GameState] with a boolean and an integer variable.  The
    three helpers are stand-ins of the right types. *)
Definition ExampleClassname (Data : UArticyImportData) (bOmittPrefix : bool) : FString :=
  (if bOmittPrefix then EmptyString else "U") +:+ TechnicalName (GetProject Data)
  +:+ "GlobalVariables".

Definition ExampleTypeString (var : FArticyGVar) : FString :=
  match Type_ var with
  | ADT_Boolean => "UArticyBool"
  | ADT_Integer => "UArticyInt"
  | ADT_String => "UArticyString"
  | ADT_MultiLanguageString => "UArticyString"
  end.

Definition ExampleValueString (var : FArticyGVar) : FString :=
  match Type_ var with
  | ADT_Boolean => if BoolValue var then "true" else "false"
  | ADT_Integer => if (IntValue var =? 0)%Z then "0" else "1"
  | _ => dq +:+ StringValue var +:+ dq
  end.

Definition ExampleData : UArticyImportData :=
  {| Project := {| Name := "Demo"; DetailName := "Demo project"; Guid := "0-0-0-0";
                  TechnicalName := "Demo" |};
     GlobalVariables :=
       {| Namespaces :=
            [ {| Namespace := "GameState";
                 NsDescription := "State of the game";
                 Variables :=
                   [ {| Variable_ := "awake"; Type_ := ADT_Boolean; Description := EmptyString;
                        BoolValue := true; IntValue := 0; StringValue := EmptyString |};
                     {| Variable_ := "health"; Type_ := ADT_Integer; Description := EmptyString;
                        BoolValue := false; IntValue := 1; StringValue := EmptyString |} ];
                 CppTypename := "UDemoGameStateVariables" |} ] |} |}.

End CodeGen.

(* ===================================================================== *)
(** ** ArticyPluginSettings.cpp                                          *)
(* ===================================================================== *)

Module PluginSettings.

(** [TMap<FString, bool> PackageLoadSettings]: the entries, each with the
    key as it was spelled when added, in the order the map iterates over
    them.  Keys are matched with [FString_eq], as [TMap] and
    [TArray::Contains] do. *)
Abbreviation PackageLoadSettingsMap := (list (FString * bool)).

(** [TMap::GenerateKeyArray] *)
Definition GenerateKeyArray (m : list (FString * bool)) : list FString := m.*1.

(** [TArray<FString>::Contains] *)
Definition Contains (l : list FString) (Name : FString) : bool :=
  bool_decide (Exists (λ Element, FString_eq Element Name) l).

(** [TMap::Contains] *)
Definition MapContains (m : list (FString * bool)) (Name : FString) : bool :=
  bool_decide (Exists (λ p, FString_eq p.1 Name) m).

(** [TMap::Find], which [operator[]] reads through. *)
Fixpoint MapFind (m : list (FString * bool)) (Name : FString) : option bool :=
  match m with
  | [] => None
  | (Key, Value) :: m' =>
      if decide (FString_eq Key Name) then Some Value else MapFind m' Name
  end.

(** [TMap::Remove] *)
Definition MapRemove (Name : FString) (m : list (FString * bool)) : list (FString * bool) :=
  filter (λ p, ¬ FString_eq p.1 Name) m.

(** [TMap::Add]: a pair under a matching key is replaced, key included;
    otherwise the pair is new. *)
Definition MapAdd (Name : FString) (Value : bool) (m : list (FString * bool))
    : list (FString * bool) :=
  if MapContains m Name
  then (λ p, if decide (FString_eq p.1 Name) then (Name, Value) else p) <$> m
  else m ++ [(Name, Value)].

Section Settings.

(** [UArticyDatabase] lives in the runtime module, outside the verified
    sources: its type and the three methods the settings call are taken as
    given.  [ChangePackageDefault] acts on the database object. *)
Variable UArticyDatabase : Type.
Variable GetImportedPackageNames : UArticyDatabase → list FString.
Variable IsPackageDefaultPackage : UArticyDatabase → FString → bool.
Variable ChangePackageDefault : UArticyDatabase → FString → bool → UArticyDatabase.

(** The objects [UpdatePackageSettings] touches: [this], the class default
    object reached by [GetDefault<UArticyPluginSettings>()] (which is [this]
    itself when [bThisIsDefault]), the original database behind
    [UArticyDatabase::GetMutableOriginal()] ([None]: invalid weak pointer),
    and the warnings logged. *)
Record World : Type := {
  PackageLoadSettings : list (FString * bool);
  bThisIsDefault : bool;
  DefaultObjectSettings : list (FString * bool);
  GetMutableOriginal : option UArticyDatabase;
  LogTemp : list FString
}.

Definition SetPackageLoadSettings (m : list (FString * bool)) (w : World) : World :=
  {| PackageLoadSettings := m;
     bThisIsDefault := bThisIsDefault w;
     DefaultObjectSettings := DefaultObjectSettings w;
     GetMutableOriginal := GetMutableOriginal w;
     LogTemp := LogTemp w |}.

Definition SetDatabase (db : UArticyDatabase) (w : World) : World :=
  {| PackageLoadSettings := PackageLoadSettings w;
     bThisIsDefault := bThisIsDefault w;
     DefaultObjectSettings := DefaultObjectSettings w;
     GetMutableOriginal := Some db;
     LogTemp := LogTemp w |}.

Definition UE_LOG (msg : FString) (w : World) : World :=
  {| PackageLoadSettings := PackageLoadSettings w;
     bThisIsDefault := bThisIsDefault w;
     DefaultObjectSettings := DefaultObjectSettings w;
     GetMutableOriginal := GetMutableOriginal w;
     LogTemp := LogTemp w ++ [msg] |}.

(** [GetDefault<UArticyPluginSettings>()->PackageLoadSettings] *)
Definition GetDefaultSettings (w : World) : list (FString * bool) :=
  if bThisIsDefault w then PackageLoadSettings w else DefaultObjectSettings w.

(** One round of the loop of [ApplyPreviousSettings] (lines 91-101); [db]
    is the database object as mutated so far.  [Contains] followed by
    [operator[]] is one [MapFind]. *)
Definition ApplyPreviousSettings_step (acc : UArticyDatabase * World) (PackageName : FString)
    : UArticyDatabase * World :=
  let '(db, w) := acc in
  match MapFind (GetDefaultSettings w) PackageName with
  | Some b => (ChangePackageDefault db PackageName b, w)
  | None =>
      (db, UE_LOG ("Package name '" +:+ PackageName +:+ "' not found in PackageLoadSettings.") w)
  end.

(** [void UArticyPluginSettings::ApplyPreviousSettings() const] *)
Definition ApplyPreviousSettings (w : World) : World :=
  match GetMutableOriginal w with
  | Some OriginalDatabase =>
      let '(db, w') :=
        foldl ApplyPreviousSettings_step (OriginalDatabase, w)
              (GetImportedPackageNames OriginalDatabase) in
      SetDatabase db w'
  | None => UE_LOG "ArticyDatabase is nullptr in ApplyPreviousSettings." w
  end.

(** The first loop (lines 63-70): drop the names that are no longer imported. *)
Definition RemoveOutdated (ImportedPackageNames CurrentNames : list FString)
    (m : list (FString * bool)) : list (FString * bool) :=
  foldl (λ m Name, if negb (Contains ImportedPackageNames Name) then MapRemove Name m else m)
        m CurrentNames.

(** The second loop (lines 72-79): add the names that were not keys. *)
Definition AddNew (db : UArticyDatabase) (ImportedPackageNames CurrentNames : list FString)
    (m : list (FString * bool)) : list (FString * bool) :=
  foldl (λ m Name,
           if negb (Contains CurrentNames Name)
           then MapAdd Name (IsPackageDefaultPackage db Name) m else m)
        m ImportedPackageNames.

(** [void UArticyPluginSettings::UpdatePackageSettings()] *)
Definition UpdatePackageSettings (w : World) : World :=
  match GetMutableOriginal w with
  | None => w
  | Some ArticyDatabase =>
      let ImportedPackageNames := GetImportedPackageNames ArticyDatabase in
      let CurrentNames := GenerateKeyArray (PackageLoadSettings w) in
      let m1 := RemoveOutdated ImportedPackageNames CurrentNames (PackageLoadSettings w) in
      let m2 := AddNew ArticyDatabase ImportedPackageNames CurrentNames m1 in
      ApplyPreviousSettings (SetPackageLoadSettings m2 w)
  end.

(** [bool UArticyPluginSettings::DoesPackageSettingExist(FString)] *)
Definition DoesPackageSettingExist (w : World) (packageName : FString) : bool :=
  MapContains (PackageLoadSettings w) packageName.

End Settings.

Arguments PackageLoadSettings {UArticyDatabase} _.
Arguments bThisIsDefault {UArticyDatabase} _.
Arguments DefaultObjectSettings {UArticyDatabase} _.
Arguments GetMutableOriginal {UArticyDatabase} _.
Arguments LogTemp {UArticyDatabase} _.
Arguments SetPackageLoadSettings {UArticyDatabase} _ _.
Arguments SetDatabase {UArticyDatabase} _ _.
Arguments UE_LOG {UArticyDatabase} _ _.
Arguments GetDefaultSettings {UArticyDatabase} _.
Arguments ApplyPreviousSettings_step {UArticyDatabase} _ _ _.
Arguments ApplyPreviousSettings {UArticyDatabase} _ _ _.
Arguments AddNew {UArticyDatabase} _ _ _ _ _.
Arguments UpdatePackageSettings {UArticyDatabase} _ _ _ _.
Arguments DoesPackageSettingExist {UArticyDatabase} _ _.

(** *** A database for examples: its packages, by name, with their default
    flag; package names are matched as the engine matches them. *)
Definition PackageList : Type := list (FString * bool).

Definition PackageNames (db : PackageList) : list FString := db.*1.

Definition PackageIsDefault (db : PackageList) (Name : FString) : bool :=
  bool_decide (Exists (λ p, FString_eq p.1 Name ∧ p.2 = true) db).

Definition PackageSetDefault (db : PackageList) (Name : FString) (b : bool) : PackageList :=
  (λ p, if decide (FString_eq p.1 Name) then (p.1, b) else p) <$> db.

(** The database imports [Chapter1] (default) and [Chapter2]; the settings
    still hold an entry for [Prologue], which is gone, and the user has
    switched [Chapter1] off. *)
Definition ExampleDatabase : PackageList := [("Chapter1", true); ("Chapter2", false)].

Definition ExampleWorld : World PackageList :=
  {| PackageLoadSettings := [("Chapter1", false); ("Prologue", true)];
     bThisIsDefault := true;
     DefaultObjectSettings := [];
     GetMutableOriginal := Some ExampleDatabase;
     LogTemp := [] |}.

(** The settings hold the package under the spelling [chapter1], switched
    off; the database imports it as [Chapter1], a default package. *)
Definition RespelledDatabase : PackageList := [("Chapter1", true)].

Definition RespelledWorld : World PackageList :=
  {| PackageLoadSettings := [("chapter1", false)];
     bThisIsDefault := true;
     DefaultObjectSettings := [];
     GetMutableOriginal := Some RespelledDatabase;
     LogTemp := [] |}.

End PluginSettings.

(* ===================================================================== *)
(** ** ArticyEditorModule.cpp                                            *)
(* ===================================================================== *)

Module EditorModule.

Inductive EImportStatusValidity : Type :=
| Valid
| ImportDataAssetMissing
| FileMissing
| ImportantAssetMissing.

Inductive EAppReturnType : Type := No | Yes | Cancel.

Inductive EAppMsgType : Type := Ok | YesNo.

Inductive ETabSpawnerMenuType : Type := Enabled | Disabled | Hidden.

(** The member functions of [FArticyEditorModule] that get bound into
    delegates. *)
Inductive Method : Type :=
| mOnGeneratedCodeChanged
| mTriggerQueuedImport
| mOpenArticyWindow
| mOpenArticyGVDebugger
| mOnSpawnArticyMenuTab
| mOnSpawnArticyGVDebuggerTab
| mAddToolbarExtension.

#[global] Instance EImportStatusValidity_eq_dec : EqDecision EImportStatusValidity.
Proof. solve_decision. Defined.

#[global] Instance EAppReturnType_eq_dec : EqDecision EAppReturnType.
Proof. solve_decision. Defined.

#[global] Instance Method_eq_dec : EqDecision Method.
Proof. solve_decision. Defined.

(** [FDelegateHandle]: an id, 0 for the invalid handle. *)
Abbreviation FDelegateHandle := N.
Definition InvalidHandle : FDelegateHandle := 0%N.

(** Calls into the engine that only register, announce or display
    something; they are kept in the order they are made. *)
Inductive EngineCall : Type :=
| MakeCustomizationManager
| RegisterAssetTypeActionsCall (Actions : FString)
| NewConsoleCommands
| RegisterArticyIdPropertyWidgetCustomizationFactory (Factory : FString)
| RegisterCustomPropertyTypeLayout (PropertyTypeName MakeInstance : FString)
| RegisterCustomClassLayout (ClassName MakeInstance : FString)
| NotifyCustomizationModuleChanged
| RegisterVisualPinFactory (Factory : FString)
| RegisterSettings (ContainerName CategoryName SectionName DisplayName Description : FString)
| UnregisterSettings (ContainerName CategoryName SectionName : FString)
| RegisterCommands
| NewCommandList
| MapAction (Command : FString) (Execute : Method)
| ExtendMenu (Name : FString)
| AddSection (Name Label : FString)
| AddMenuEntryWithCommandList (Command : FString)
| AddToolBarExtension (Hook : FString) (Delegate : Method)
| RegisterNomadTabSpawner (TabId : FString) (OnSpawnTab : Method) (DisplayName : FString)
                          (MenuType : ETabSpawnerMenuType)
| StyleInitialize
| OpenMsgDlgInt_NonModal (MsgType : EAppMsgType) (Message Title : FString)
| BringToFront
| OpenMsgDlgInt (MsgType : EAppMsgType) (Message Title : FString)
| MessageDialogOpen (MsgType : EAppMsgType) (Message Title : FString).

(** The module object together with the engine state it changes:
    the invocation list of [FEditorDelegates::EndPIE], the callbacks of the
    directory watcher, the counter new delegate handles are drawn from, and
    the log of the other engine calls. *)
Record Editor : Type := {
  bIsImportQueued : bool;
  QueuedImportHandle : FDelegateHandle;
  GeneratedCodeWatcherHandle : FDelegateHandle;
  EndPIE : list (FDelegateHandle * Method);
  DirectoryWatchers : list (FString * FDelegateHandle * Method);
  GNextID : N;
  EngineCalls : list EngineCall
}.

(** What the module reads from its surroundings: the build configuration,
    the loaded modules, and the answers of the engine services it queries. *)
Record FAssetData : Type := {
  AssetName : FString;
  GetAsset : option FString       (* the loaded object, [None] for nullptr *)
}.

Record Env : Type := {
  PLATFORM_WINDOWS : bool;
  ENGINE_MAJOR_VERSION : Z;
  ENGINE_MINOR_VERSION : Z;
  SettingsModuleLoaded : bool;
  GetSourceFolder : FString;
  GetArticyGeneratedFolder : FString;
  EnsureImportDataAsset : option UArticyImportData;
  FindFiles : FString → list FString;
  GetAssetsByPath : FString → list FAssetData;
  DialogAnswer : EAppReturnType
}.

Definition call (c : EngineCall) (w : Editor) : Editor :=
  {| bIsImportQueued := bIsImportQueued w;
     QueuedImportHandle := QueuedImportHandle w;
     GeneratedCodeWatcherHandle := GeneratedCodeWatcherHandle w;
     EndPIE := EndPIE w;
     DirectoryWatchers := DirectoryWatchers w;
     GNextID := GNextID w;
     EngineCalls := EngineCalls w ++ [c] |}.

Definition Set_bIsImportQueued (b : bool) (w : Editor) : Editor :=
  {| bIsImportQueued := b;
     QueuedImportHandle := QueuedImportHandle w;
     GeneratedCodeWatcherHandle := GeneratedCodeWatcherHandle w;
     EndPIE := EndPIE w;
     DirectoryWatchers := DirectoryWatchers w;
     GNextID := GNextID w;
     EngineCalls := EngineCalls w |}.

Definition Set_QueuedImportHandle (h : FDelegateHandle) (w : Editor) : Editor :=
  {| bIsImportQueued := bIsImportQueued w;
     QueuedImportHandle := h;
     GeneratedCodeWatcherHandle := GeneratedCodeWatcherHandle w;
     EndPIE := EndPIE w;
     DirectoryWatchers := DirectoryWatchers w;
     GNextID := GNextID w;
     EngineCalls := EngineCalls w |}.

(** A new delegate handle: the engine increments its counter. *)
Definition GenerateNewID (w : Editor) : FDelegateHandle * Editor :=
  let id := N.succ (GNextID w) in
  (id,
   {| bIsImportQueued := bIsImportQueued w;
      QueuedImportHandle := QueuedImportHandle w;
      GeneratedCodeWatcherHandle := GeneratedCodeWatcherHandle w;
      EndPIE := EndPIE w;
      DirectoryWatchers := DirectoryWatchers w;
      GNextID := id;
      EngineCalls := EngineCalls w |}).

(** [FEditorDelegates::EndPIE.AddRaw(this, m)] *)
Definition EndPIE_AddRaw (m : Method) (w : Editor) : FDelegateHandle * Editor :=
  let '(h, w) := GenerateNewID w in
  (h,
   {| bIsImportQueued := bIsImportQueued w;
      QueuedImportHandle := QueuedImportHandle w;
      GeneratedCodeWatcherHandle := GeneratedCodeWatcherHandle w;
      EndPIE := EndPIE w ++ [(h, m)];
      DirectoryWatchers := DirectoryWatchers w;
      GNextID := GNextID w;
      EngineCalls := EngineCalls w |}).

(** [FEditorDelegates::EndPIE.Remove(h)]: drops the delegate bound under
    the handle [h]; an invalid handle removes nothing. *)
Definition EndPIE_Remove (h : FDelegateHandle) (w : Editor) : Editor :=
  {| bIsImportQueued := bIsImportQueued w;
     QueuedImportHandle := QueuedImportHandle w;
     GeneratedCodeWatcherHandle := GeneratedCodeWatcherHandle w;
     EndPIE := if (h =? InvalidHandle)%N then EndPIE w
               else filter (λ d, d.1 ≠ h) (EndPIE w);
     DirectoryWatchers := DirectoryWatchers w;
     GNextID := GNextID w;
     EngineCalls := EngineCalls w |}.

(** [IDirectoryWatcher::RegisterDirectoryChangedCallback_Handle(dir, m, handle)] *)
Definition RegisterDirectoryChangedCallback_Handle (dir : FString) (m : Method) (w : Editor)
    : Editor :=
  let '(h, w) := GenerateNewID w in
  {| bIsImportQueued := bIsImportQueued w;
     QueuedImportHandle := QueuedImportHandle w;
     GeneratedCodeWatcherHandle := h;
     EndPIE := EndPIE w;
     DirectoryWatchers := DirectoryWatchers w ++ [(dir, h, m)];
     GNextID := GNextID w;
     EngineCalls := EngineCalls w |}.

Definition ArticyWindowTabID : FString := "ArticyWindowTab".
Definition ArticyGVDebuggerTabID : FString := "ArticyGVDebuggerTab".

Section Module_.

Variable env : Env.

(** [FArticyEditorFunctionLibrary], outside the verified sources: whatever
    its two entry points do to the editor. *)
Variable ForceCompleteReimport : Editor → Editor.
Variable ReimportChanges : Editor → Editor.

Definition RegisterAssetTypeActions (w : Editor) : Editor :=
  let w := call (RegisterAssetTypeActionsCall "FAssetTypeActions_ArticyGv") w in
  call (RegisterAssetTypeActionsCall "FAssetTypeActions_ArticyAlterativeGV") w.

Definition RegisterConsoleCommands (w : Editor) : Editor :=
  call NewConsoleCommands w.

Definition RegisterDefaultArticyIdPropertyWidgetExtensions (w : Editor) : Editor :=
  if PLATFORM_WINDOWS env
  then call (RegisterArticyIdPropertyWidgetCustomizationFactory
               "FArticyButtonCustomizationFactory") w
  else w.

Definition RegisterDetailCustomizations (w : Editor) : Editor :=
  let w := call (RegisterCustomPropertyTypeLayout "ArticyId"
                   "FArticyIdCustomization::MakeInstance") w in
  let w := call (RegisterCustomPropertyTypeLayout "ArticyRef"
                   "FArticyRefCustomization::MakeInstance") w in
  let w := call (RegisterCustomClassLayout "ArticyPluginSettings"
                   "FArticyPluginSettingsCustomization::MakeInstance") w in
  let w := call (RegisterCustomClassLayout "ArticyGlobalVariables"
                   "FArticyGVCustomization::MakeInstance") w in
  call NotifyCustomizationModuleChanged w.

Definition RegisterGraphPinFactory (w : Editor) : Editor :=
  call (RegisterVisualPinFactory "FArticyRefPinFactory") w.

Definition RegisterPluginSettings (w : Editor) : Editor :=
  if SettingsModuleLoaded env
  then call (RegisterSettings "Project" "Plugins" "ArticyImporter"
               "Articy X Importer" "Articy X Importer Configuration.") w
  else w.

Definition UnregisterPluginSettings (w : Editor) : Editor :=
  if SettingsModuleLoaded env
  then call (UnregisterSettings "Project" "Plugins" "ArticyImporter") w
  else w.

Definition RegisterPluginCommands (w : Editor) : Editor :=
  let w := call RegisterCommands w in
  let w := call NewCommandList w in
  let w := call (MapAction "OpenArticyImporter" mOpenArticyWindow) w in
  call (MapAction "OpenArticyGvDebugger" mOpenArticyGVDebugger) w.

Definition RegisterArticyToolbar (w : Editor) : Editor :=
  if (5 <=? ENGINE_MAJOR_VERSION env)%Z
  then
    let w := call (ExtendMenu "LevelEditor.LevelEditorToolBar.LevelToolbarQuickSettings") w in
    let w := call (AddSection "ArticyUtilities" "Articy Utilities") w in
    let w := call (AddMenuEntryWithCommandList "OpenArticyImporter") w in
    call (AddMenuEntryWithCommandList "OpenArticyGvDebugger") w
  else call (AddToolBarExtension "Settings" mAddToolbarExtension) w.

Definition RegisterDirectoryWatcher (w : Editor) : Editor :=
  RegisterDirectoryChangedCallback_Handle (GetSourceFolder env) mOnGeneratedCodeChanged w.

Definition RegisterToolTabs (w : Editor) : Editor :=
  let w := call (RegisterNomadTabSpawner ArticyWindowTabID mOnSpawnArticyMenuTab
                   "Articy Menu" Hidden) w in
  call (RegisterNomadTabSpawner ArticyGVDebuggerTabID mOnSpawnArticyGVDebuggerTab
          "Articy GV Debugger" Hidden) w.

(** [void FArticyEditorModule::StartupModule()]; the call of
    [RegisterDirectoryWatcher] is commented out in the source (line 66). *)
Definition StartupModule (w : Editor) : Editor :=
  let w := call MakeCustomizationManager w in
  let w := RegisterAssetTypeActions w in
  let w := RegisterConsoleCommands w in
  let w := RegisterDefaultArticyIdPropertyWidgetExtensions w in
  let w := RegisterDetailCustomizations w in
  let w := RegisterGraphPinFactory w in
  let w := RegisterPluginSettings w in
  let w := RegisterPluginCommands w in
  let w := RegisterArticyToolbar w in
  let w := RegisterToolTabs w in
  call StyleInitialize w.

(** [bool FArticyEditorModule::IsImportQueued()] *)
Definition IsImportQueued (w : Editor) : bool := bIsImportQueued w.

(** [void FArticyEditorModule::QueueImport()] *)
Definition QueueImport (w : Editor) : Editor :=
  let w := Set_bIsImportQueued true w in
  let Message := "To import articy:draft data, the play mode has to be quit. Import will begin after exiting play." in
  let Title := "Import not possible" in
  let w := call (OpenMsgDlgInt_NonModal Ok Message Title) w in
  let w := call BringToFront w in
  let '(h, w) := EndPIE_AddRaw mTriggerQueuedImport w in
  Set_QueuedImportHandle h w.

(** The loop over the assets (lines 370-379): [Some] is an early return. *)
Fixpoint CheckAssets (ArticyAssets : list FAssetData) : option EImportStatusValidity :=
  match ArticyAssets with
  | [] => None
  | Data :: rest =>
      match GetAsset Data with
      | None => Some FileMissing
      | Some _ => CheckAssets rest
      end
  end.

(** [TArray::Num()] *)
Definition Num {A : Type} (l : list A) : Z := Z.of_nat (length l).

(** [EImportStatusValidity FArticyEditorModule::CheckImportStatusValidity() const] *)
Definition CheckImportStatusValidity : EImportStatusValidity :=
  match EnsureImportDataAsset env with
  | None => ImportDataAssetMissing
  | Some _ =>
      let FileNames := FindFiles env (GetSourceFolder env) in
      if (Num FileNames <? 5)%Z then FileMissing
      else
        let ArticyAssets := GetAssetsByPath env (GetArticyGeneratedFolder env) in
        match CheckAssets ArticyAssets with
        | Some r => r
        | None =>
            if (Num ArticyAssets <? 3)%Z then ImportantAssetMissing
            else Valid
        end
  end.

(** The modal yes/no dialog, through the API of the engine version built
    against (lines 404-410). *)
Definition AskYesNo (Message Title : FString) (w : Editor) : EAppReturnType * Editor :=
  let c :=
    if ((ENGINE_MAJOR_VERSION env =? 4) && (ENGINE_MINOR_VERSION env <=? 24))%Z
    then OpenMsgDlgInt YesNo Message Title
    else MessageDialogOpen YesNo Message Title in
  (DialogAnswer env, call c w).

Definition MissingFileMessage : FString :=
  "It appears a generated code file is missing. Perform full reimport now?".
Definition MissingFileTitle : FString := "Articy detected an error".

(** [void FArticyEditorModule::OnGeneratedCodeChanged(const
    TArray<FFileChangeData>& FileChanges) const] *)
Definition OnGeneratedCodeChanged (FileChanges : list FString) (w : Editor) : Editor :=
  let Validity := CheckImportStatusValidity in
  if decide (Validity = FileMissing) then
    let '(ReturnType, w) := AskYesNo MissingFileMessage MissingFileTitle w in
    if decide (ReturnType = Yes) then ForceCompleteReimport w else w
  else w.

(** [void FArticyEditorModule::UnqueueImport()] *)
Definition UnqueueImport (w : Editor) : Editor :=
  let w := EndPIE_Remove (QueuedImportHandle w) w in
  let w := Set_QueuedImportHandle InvalidHandle w in
  Set_bIsImportQueued false w.

(** [void FArticyEditorModule::TriggerQueuedImport(bool b)] *)
Definition TriggerQueuedImport (b : bool) (w : Editor) : Editor :=
  let w := ReimportChanges w in
  UnqueueImport w.

(** The engine's side of the directory watcher: a change under [dir] runs
    every callback registered for [dir], in registration order.  Only
    [OnGeneratedCodeChanged] is ever registered there. *)
Definition DirectoryChanged (dir : FString) (FileChanges : list FString) (w : Editor) : Editor :=
  foldl (λ w r,
           if decide (r.1.1 = dir ∧ r.2 = mOnGeneratedCodeChanged)
           then OnGeneratedCodeChanged FileChanges w else w)
        w (DirectoryWatchers w).

End Module_.

(** *** Observers over the editor state and the call log *)

(** The modal dialogs opened by a list of calls. *)
Definition Prompts (cs : list EngineCall) : list (FString * FString) :=
  omap (λ c, match c with
             | OpenMsgDlgInt _ Message Title | MessageDialogOpen _ Message Title =>
                 Some (Message, Title)
             | _ => None
             end) cs.

(** Whether the directory watcher holds a callback to [m] for [dir]. *)
Definition IsWatching (dir : FString) (m : Method) (w : Editor) : bool :=
  bool_decide (Exists (λ r, r.1.1 = dir ∧ r.2 = m) (DirectoryWatchers w)).

(** The property-type customizations, class customizations, settings
    sections and nomad tab spawners registered by a list of calls. *)
Definition PropertyTypeLayouts (cs : list EngineCall) : list (FString * FString) :=
  omap (λ c, match c with
             | RegisterCustomPropertyTypeLayout n f => Some (n, f)
             | _ => None
             end) cs.

Definition ClassLayouts (cs : list EngineCall) : list (FString * FString) :=
  omap (λ c, match c with
             | RegisterCustomClassLayout n f => Some (n, f)
             | _ => None
             end) cs.

Definition SettingsSections (cs : list EngineCall) : list (FString * FString * FString) :=
  omap (λ c, match c with
             | RegisterSettings container category section _ _ =>
                 Some (container, category, section)
             | _ => None
             end) cs.

Definition TabSpawners (cs : list EngineCall)
    : list (FString * Method * FString * ETabSpawnerMenuType) :=
  omap (λ c, match c with
             | RegisterNomadTabSpawner id m name menu => Some (id, m, name, menu)
             | _ => None
             end) cs.

(** A modal yes/no dialog with the given message and title. *)
Definition IsYesNoPrompt (Message Title : FString) (c : EngineCall) : Prop :=
  c = OpenMsgDlgInt YesNo Message Title ∨ c = MessageDialogOpen YesNo Message Title.

(** A freshly started editor: nothing queued, nothing registered. *)
Definition FreshEditor : Editor :=
  {| bIsImportQueued := false;
     QueuedImportHandle := InvalidHandle;
     GeneratedCodeWatcherHandle := InvalidHandle;
     EndPIE := [];
     DirectoryWatchers := [];
     GNextID := 0;
     EngineCalls := [] |}.

(** Surroundings with a complete import: the import data asset, five
    generated code files, three loaded assets. *)
Definition CompleteImport (answer : EAppReturnType) : Env :=
  {| PLATFORM_WINDOWS := true;
     ENGINE_MAJOR_VERSION := 5;
     ENGINE_MINOR_VERSION := 3;
     SettingsModuleLoaded := true;
     GetSourceFolder := "Source/Project/ArticyGenerated";
     GetArticyGeneratedFolder := "/Game/ArticyContent/Generated";
     EnsureImportDataAsset :=
       Some {| Project := {| Name := "Project"; DetailName := EmptyString;
                             Guid := EmptyString; TechnicalName := "Project" |};
               GlobalVariables := {| Namespaces := [] |} |};
     FindFiles := λ _, ["ProjectGlobalVariables.h"; "ProjectDatabase.h";
                        "ProjectArticyTypes.h"; "ProjectInterfaces.h";
                        "ProjectExpressoScripts.h"];
     GetAssetsByPath := λ _,
       [ {| AssetName := "ProjectDatabase"; GetAsset := Some "ProjectDatabase" |};
         {| AssetName := "ProjectGlobalVariables"; GetAsset := Some "ProjectGlobalVariables" |};
         {| AssetName := "Package"; GetAsset := Some "Package" |} ];
     DialogAnswer := answer |}.

(** The same surroundings after one generated code file was deleted. *)
Definition CodeFileDeleted (answer : EAppReturnType) : Env :=
  let e := CompleteImport answer in
  {| PLATFORM_WINDOWS := PLATFORM_WINDOWS e;
     ENGINE_MAJOR_VERSION := ENGINE_MAJOR_VERSION e;
     ENGINE_MINOR_VERSION := ENGINE_MINOR_VERSION e;
     SettingsModuleLoaded := SettingsModuleLoaded e;
     GetSourceFolder := GetSourceFolder e;
     GetArticyGeneratedFolder := GetArticyGeneratedFolder e;
     EnsureImportDataAsset := EnsureImportDataAsset e;
     FindFiles := λ dir, drop 1 (FindFiles e dir);
     GetAssetsByPath := GetAssetsByPath e;
     DialogAnswer := DialogAnswer e |}.

End EditorModule.

(* ===================================================================== *)
(** ** SArticyObjectToolTip.cpp                                          *)
(* ===================================================================== *)

Module ToolTip.

(** [FText], by its source string; [LOCTEXT(key, text)] is [text]. *)
Abbreviation FText := string.
Abbreviation FArticyId := N.

(** An articy object as the tooltip sees it: its name, the name of its
    class, and for each of the three interfaces the tooltip casts to, the
    value the interface returns ([None]: the cast yields [nullptr]). *)
Record UArticyObject : Type := {
  GetName : FString;
  GetClassName : FString;
  ObjectWithDisplayName : option FText;
  ObjectWithSpeaker : option FArticyId;
  ObjectWithText : option FText
}.

(** Running code that dereferences pointers: it returns, or it dereferences
    a null pointer. *)
Inductive Result (A : Type) : Type :=
| Returns (a : A)
| NullDereference.
Arguments Returns {A} a.
Arguments NullDereference {A}.

#[global] Instance Result_ret : MRet Result := λ A a, Returns a.
#[global] Instance Result_bind : MBind Result := λ A B f r,
  match r with
  | Returns a => f a
  | NullDereference => NullDereference
  end.

(** [p->...]: the pointee, when there is one. *)
Definition deref {A : Type} (p : option A) : Result A :=
  match p with
  | Some a => Returns a
  | None => NullDereference
  end.

(** A slot of the info box, as [AddToToolTipInfoBox] fills it: the key
    followed by a colon, the value, and whether it is highlighted. *)
Record Slot : Type := {
  KeyText : FText;
  ValueText : FText;
  bImportant : bool
}.

(** The part of the returned widget tree that depends on the object: the
    text block of the top section and the info box of the bottom section. *)
Record ToolTipContent : Type := {
  NameText : FText;
  InfoBox : list Slot
}.

(** [FText::IsEmpty] *)
Definition IsEmpty (t : FText) : bool := bool_decide (t = EmptyString).

(** [void SArticyObjectToolTip::AddToToolTipInfoBox(InfoBox, Key, Value, bImportant) const] *)
Definition AddToToolTipInfoBox (InfoBox : list Slot) (Key Value : FText) (bImportant : bool)
    : list Slot :=
  InfoBox ++ [ {| KeyText := Key +:+ ":"; ValueText := Value; bImportant := bImportant |} ].

Section Content.

(** [UArticyObject::FindAsset], from the runtime module. *)
Variable FindAsset : FArticyId → option UArticyObject.

(** [Cast<IArticyObjectWithDisplayName>(Speaker)]: null for a null
    speaker and for one without the interface. *)
Definition CastToDisplayName (Speaker : option UArticyObject) : option FText :=
  Speaker ≫= ObjectWithDisplayName.

(** [TSharedRef<SWidget> SArticyObjectToolTip::CreateToolTipContent()] *)
Definition CreateToolTipContent (ObjectToDisplay : option UArticyObject) : Result ToolTipContent :=
  Object ← deref ObjectToDisplay;
  let AssetName := GetName Object in
  let NameText := AssetName in
  let ClassText := "(" +:+ GetClassName Object +:+ ")" in
  let InfoBox : list Slot := [] in
  let bUsingDisplayName := false in
  let '(NameText, bUsingDisplayName) :=
    match ObjectWithDisplayName Object with
    | Some DisplayName =>
        if negb (IsEmpty DisplayName) then (DisplayName, true)
        else (NameText, bUsingDisplayName)
    | None => (NameText, bUsingDisplayName)
    end in
  InfoBox ←
    match ObjectWithSpeaker Object with
    | Some SpeakerId =>
        let Speaker := FindAsset SpeakerId in
        let DisplayNameOfSpeaker := CastToDisplayName Speaker in
        DisplayName ← deref DisplayNameOfSpeaker;
        mret (AddToToolTipInfoBox InfoBox "Speaker" DisplayName true)
    | None => mret InfoBox
    end;
  let InfoBox :=
    match ObjectWithText Object with
    | Some Text =>
        if IsEmpty Text then InfoBox
        else AddToToolTipInfoBox InfoBox "Text" (dq +:+ Text +:+ dq) true
    | None => InfoBox
    end in
  let InfoBox :=
    if bUsingDisplayName : bool
    then AddToToolTipInfoBox InfoBox "Asset Name" AssetName false
    else InfoBox in
  let InfoBox := AddToToolTipInfoBox InfoBox "Class" ClassText false in
  mret {| NameText := NameText; InfoBox := InfoBox |}.

End Content.

(** *** Objects for examples: a character, and a dialogue line spoken by
    the asset with id 7. *)
Definition Anna : UArticyObject :=
  {| GetName := "Chr_Anna";
     GetClassName := "DemoCharacter";
     ObjectWithDisplayName := Some "Anna";
     ObjectWithSpeaker := None;
     ObjectWithText := None |}.

Definition Greeting : UArticyObject :=
  {| GetName := "DFr_0100";
     GetClassName := "DemoDialogueFragment";
     ObjectWithDisplayName := Some EmptyString;
     ObjectWithSpeaker := Some 7%N;
     ObjectWithText := Some "Hello." |}.

(** A location: an asset without a display name. *)
Definition Harbour : UArticyObject :=
  {| GetName := "Loc_Harbour";
     GetClassName := "DemoLocation";
     ObjectWithDisplayName := None;
     ObjectWithSpeaker := None;
     ObjectWithText := None |}.

(** Asset lookups: the speaker is imported; no asset is imported; the id
    belongs to an asset without a display name. *)
Definition AnnaImported (id : FArticyId) : option UArticyObject :=
  if (id =? 7)%N then Some Anna else None.

Definition NothingImported (id : FArticyId) : option UArticyObject := None.

Definition HarbourImported (id : FArticyId) : option UArticyObject :=
  if (id =? 7)%N then Some Harbour else None.

End ToolTip.

(* ===================================================================== *)
(** ** ArticyPluginSettingsCustomization.cpp                             *)
(* ===================================================================== *)

Module SettingsCustomization.

(** [SNew(SPackageSettings).PackageToDisplay(name)] *)
Record SPackageSettings : Type := {
  PackageToDisplay : FString
}.

(** A custom row of a detail category: its filter text and its widget. *)
Record Row : Type := {
  FilterString : FString;
  Widget : SPackageSettings
}.

Inductive Callback : Type := mRefreshSettingsUI.

(** The customization object ([LayoutBuilder], [RefreshHandle]), the detail
    layout it is handed (the custom rows of each category), and the two
    multicast delegates it binds to. *)
Record World : Type := {
  LayoutBuilder : bool;
  RefreshHandle : N;
  DetailLayout : gmap FString (list Row);
  OnAssetsGenerated : list (N * Callback);
  OnFilesLoaded : list (N * Callback);
  GNextID : N
}.

(** [IDetailLayoutBuilder::EditCategory]: the category, created when new. *)
Definition EditCategory (CategoryName : FString) (layout : gmap FString (list Row))
    : gmap FString (list Row) :=
  match layout !! CategoryName with
  | Some _ => layout
  | None => <[CategoryName := []]> layout
  end.

(** [IDetailCategoryBuilder::AddCustomRow(filter)[widget]] on a category. *)
Definition AddCustomRow (CategoryName : FString) (r : Row) (layout : gmap FString (list Row))
    : gmap FString (list Row) :=
  alter (λ rows, rows ++ [r]) CategoryName layout.

Section Customization.

(** The database class of the runtime module, and the editor state read. *)
Variable UArticyDatabase : Type.
Variable GetImportedPackageNames : UArticyDatabase → list FString.
Variable GetMutableOriginal : option UArticyDatabase.
Variable IsLoadingAssets : bool.

(** [void FArticyPluginSettingsCustomization::CustomizeDetails(IDetailLayoutBuilder&)] *)
Definition CustomizeDetails (w : World) : World :=
  (* LayoutBuilder = &DetailLayout; RefreshHandle = OnAssetsGenerated.AddRaw(...) *)
  let h := N.succ (GNextID w) in
  let w :=
    {| LayoutBuilder := true;
       RefreshHandle := h;
       DetailLayout := DetailLayout w;
       OnAssetsGenerated := OnAssetsGenerated w ++ [(h, mRefreshSettingsUI)];
       OnFilesLoaded := OnFilesLoaded w;
       GNextID := h |} in
  match GetMutableOriginal with
  | None =>
      if IsLoadingAssets
      then
        let h' := N.succ (GNextID w) in
        {| LayoutBuilder := LayoutBuilder w;
           RefreshHandle := RefreshHandle w;
           DetailLayout := DetailLayout w;
           OnAssetsGenerated := OnAssetsGenerated w;
           OnFilesLoaded := OnFilesLoaded w ++ [(h', mRefreshSettingsUI)];
           GNextID := h' |}
      else w
  | Some OriginalDatabase =>
      let layout := EditCategory "Default packages" (DetailLayout w) in
      let PackageSettingsWidgets :=
        foldl (λ widgets PackageName, widgets ++ [ {| PackageToDisplay := PackageName |} ])
              [] (GetImportedPackageNames OriginalDatabase) in
      let layout :=
        foldl (λ layout PackageSettingsWidget,
                 AddCustomRow "Default packages"
                   {| FilterString := EmptyString; Widget := PackageSettingsWidget |} layout)
              layout PackageSettingsWidgets in
      {| LayoutBuilder := LayoutBuilder w;
         RefreshHandle := RefreshHandle w;
         DetailLayout := layout;
         OnAssetsGenerated := OnAssetsGenerated w;
         OnFilesLoaded := OnFilesLoaded w;
         GNextID := GNextID w |}
  end.

End Customization.

(** The custom rows of a category ([[]] when the category does not exist). *)
Definition RowsOf (CategoryName : FString) (w : World) : list Row :=
  default [] (DetailLayout w !! CategoryName).

End SettingsCustomization.

(* ===================================================================== *)
(** ** ArticyImportData.h: script fragments                              *)
(* ===================================================================== *)

Module ExpressoFragment.

(** [struct FArticyExpressoFragment] *)
Record FArticyExpressoFragment : Type := {
  OriginalFragment : FString;
  ParsedFragment : FString;
  bIsInstruction : bool
}.

(** [bool operator==(const FArticyExpressoFragment& Other) const]: the
    flags with [bool]'s [==], the texts with [FString::operator==]. *)
Definition eqb (A Other : FArticyExpressoFragment) : bool :=
  bool_decide (bIsInstruction A = bIsInstruction Other)
  && bool_decide (FString_eq (OriginalFragment A) (OriginalFragment Other)).

Section Hash.

(** The engine's [GetTypeHash] overloads for [FString] and [bool]; their
    results are [uint32] values. *)
Variable GetTypeHash_FString : FString → Z.
Variable GetTypeHash_bool : bool → Z.

(** [inline uint32 GetTypeHash(const FArticyExpressoFragment& A)] *)
Definition GetTypeHash (A : FArticyExpressoFragment) : Z :=
  Z.lxor (GetTypeHash_FString (OriginalFragment A)) (GetTypeHash_bool (bIsInstruction A)).

End Hash.

End ExpressoFragment.

(* ===================================================================== *)
(** ** GlobalVarsGenerator.cpp: the asset                                *)
(* ===================================================================== *)

Module AssetGen.

(** The arguments of [ArticyImporterHelpers::GenerateAsset<UArticyGlobalVariables>]. *)
Record AssetRequest : Type := {
  ClassName : FString;
  ModuleName : FString;
  AssetName : FString;
  SubFolder : FString
}.

Section Asset.

Variable GetGlobalVarsClassname : UArticyImportData → bool → FString.
Variable GetProjectName : FString.

(** [void GlobalVarsGenerator::GenerateAsset(const UArticyImportData* Data)] *)
Definition GenerateAsset (Data : UArticyImportData) : AssetRequest :=
  let className := GetGlobalVarsClassname Data true in
  {| ClassName := className; ModuleName := GetProjectName;
     AssetName := EmptyString; SubFolder := EmptyString |}.

End Asset.

End AssetGen.

(* ===================================================================== *)
(** ** ArticyEditorModule.cpp: tabs, packages and shutdown               *)
(* ===================================================================== *)

Module EditorLifecycle.

Import EditorModule.

(** The two ways a tab is opened, by engine version. *)
Inductive TabInvocation : Type :=
| InvokeTab (TabId : FString)
| TryInvokeTab (TabId : FString).

Definition InvokedTabId (c : TabInvocation) : FString :=
  match c with InvokeTab id | TryInvokeTab id => id end.

Section Tabs.

Variable env : Env.

(** [void FArticyEditorModule::OpenArticyWindow()] *)
Definition OpenArticyWindow : TabInvocation :=
  if ((ENGINE_MAJOR_VERSION env =? 4) && (ENGINE_MINOR_VERSION env <? 26))%Z
  then InvokeTab ArticyWindowTabID
  else TryInvokeTab ArticyWindowTabID.

(** [void FArticyEditorModule::OpenArticyGVDebugger()] *)
Definition OpenArticyGVDebugger : TabInvocation :=
  if ((ENGINE_MAJOR_VERSION env =? 4) && (ENGINE_MINOR_VERSION env <? 26))%Z
  then InvokeTab ArticyGVDebuggerTabID
  else TryInvokeTab ArticyGVDebuggerTabID.

(** What a bound member function does when a mapped command runs it. *)
Definition ExecuteAction (m : Method) : option TabInvocation :=
  match m with
  | mOpenArticyWindow => Some OpenArticyWindow
  | mOpenArticyGVDebugger => Some OpenArticyGVDebugger
  | _ => None
  end.

End Tabs.

(** The commands mapped by a list of calls, with the member they run. *)
Definition MappedActions (cs : list EngineCall) : list (FString * Method) :=
  omap (λ c, match c with MapAction cmd m => Some (cmd, m) | _ => None end) cs.

(** The settings sections a list of calls unregisters. *)
Definition UnregisteredSections (cs : list EngineCall) : list (FString * FString * FString) :=
  omap (λ c, match c with
             | UnregisterSettings container category section =>
                 Some (container, category, section)
             | _ => None
             end) cs.

(** Whether a call needs the command list [PluginCommands] to exist. *)
Definition UsesPluginCommands (c : EngineCall) : bool :=
  match c with
  | MapAction _ _ | AddMenuEntryWithCommandList _ | AddToolBarExtension _ _ => true
  | _ => false
  end.

(** Whether a call creates [PluginCommands]. *)
Definition CreatesPluginCommands (c : EngineCall) : bool :=
  match c with NewCommandList => true | _ => false end.

(** The widget customization factories a list of calls registers. *)
Definition WidgetFactories (cs : list EngineCall) : list FString :=
  omap (λ c, match c with
             | RegisterArticyIdPropertyWidgetCustomizationFactory f => Some f
             | _ => None
             end) cs.

(** The classes the asset registry is asked for. *)
Inductive UClass : Type :=
| UArticyPackage_StaticClass
| UArticyGlobalVariables_StaticClass.

Section Packages.

Variable env : Env.

(** Objects, packages, [Cast<UArticyPackage>] on a non-null object, and the
    registry's answer to [GetAssetsByClass]: for each asset found, the
    object [GetAsset()] loads ([None]: nullptr). *)
Variable UObject : Type.
Variable UArticyPackage : Type.
Variable Cast_UArticyPackage : UObject → option UArticyPackage.
Variable GetAssetsByClass : UClass → list (option UObject).

(** [TArray<UArticyPackage*> FArticyEditorModule::GetPackagesSlow()] *)
Definition GetPackagesSlow : list (option UArticyPackage) :=
  let PackageData :=
    if ((5 <=? ENGINE_MAJOR_VERSION env) && (0 <? ENGINE_MINOR_VERSION env))%Z
    then GetAssetsByClass UArticyGlobalVariables_StaticClass
    else GetAssetsByClass UArticyPackage_StaticClass in
  foldl (λ Packages Data, Packages ++ [Data ≫= Cast_UArticyPackage]) [] PackageData.

End Packages.

(** The module object across start-up and shutdown: the editor state, the
    two owned pointers ([false]: null) and the destructive calls made. *)
Inductive ShutdownCall : Type :=
| CustomizationManagerShutdown
| DeleteConsoleCommands.

Record ModuleObject : Type := {
  TheEditor : Editor;
  CustomizationManager : bool;
  ConsoleCommands : bool;
  ShutdownCalls : list ShutdownCall
}.

Section Shutdown.

Variable env : Env.

(** [StartupModule] on the module object: [CustomizationManager] is made
    first and [RegisterConsoleCommands] allocates [ConsoleCommands]. *)
Definition StartupModuleObject (m : ModuleObject) : ModuleObject :=
  {| TheEditor := StartupModule env (TheEditor m);
     CustomizationManager := true;
     ConsoleCommands := true;
     ShutdownCalls := ShutdownCalls m |}.

(** [void FArticyEditorModule::ShutdownModule()];
    [GetCustomizationManager()->Shutdown()] dereferences the manager. *)
Definition ShutdownModule (UObjectInitialized : bool) (m : ModuleObject)
    : ToolTip.Result ModuleObject :=
  if UObjectInitialized then
    _ ← ToolTip.deref (if CustomizationManager m then Some () else None);
    let calls := ShutdownCalls m ++ [CustomizationManagerShutdown] in
    let editor := UnregisterPluginSettings env (TheEditor m) in
    mret (if ConsoleCommands m
          then {| TheEditor := editor; CustomizationManager := CustomizationManager m;
                  ConsoleCommands := false;
                  ShutdownCalls := calls ++ [DeleteConsoleCommands] |}
          else {| TheEditor := editor; CustomizationManager := CustomizationManager m;
                  ConsoleCommands := ConsoleCommands m;
                  ShutdownCalls := calls |})
  else mret m.

End Shutdown.

End EditorLifecycle.

(* ===================================================================== *)
(** ** SArticyObjectToolTip.cpp: opening and closing                     *)
(* ===================================================================== *)

Module ToolTipWidget.

Import ToolTip.

(** The tooltip widget: the weak pointer to the object ([None]: not
    valid) and the content widget ([None]: [SNullWidget::NullWidget]). *)
Record SArticyObjectToolTip : Type := {
  ObjectToDisplay : option UArticyObject;
  ContentWidget : option ToolTipContent
}.

Section Widget.

Variable FindAsset : FArticyId → option UArticyObject.

(** [void SArticyObjectToolTip::OnOpening()] *)
Definition OnOpening (t : SArticyObjectToolTip) : Result SArticyObjectToolTip :=
  match ObjectToDisplay t with
  | Some _ =>
      content ← CreateToolTipContent FindAsset (ObjectToDisplay t);
      mret {| ObjectToDisplay := ObjectToDisplay t; ContentWidget := Some content |}
  | None => mret t
  end.

(** [void SArticyObjectToolTip::OnClosed()] *)
Definition OnClosed (t : SArticyObjectToolTip) : SArticyObjectToolTip :=
  {| ObjectToDisplay := ObjectToDisplay t; ContentWidget := None |}.

End Widget.

End ToolTipWidget.

(* ===================================================================== *)
(** ** ArticyPluginSettingsCustomization.cpp: refresh and destruction    *)
(* ===================================================================== *)

Module SettingsPanel.

Import SettingsCustomization.

(** The customization with the rest of what its other members touch: the
    [OnImportFinished] delegate of the editor module and the number of
    [ForceRefreshDetails] calls made on the layout builder. *)
Record Panel : Type := {
  Customization : World;
  OnImportFinished : list (N * Callback);
  ForceRefreshDetails : nat
}.

(** [Remove(handle)] on a multicast delegate: drops the binding under the
    handle; the invalid handle 0 removes nothing. *)
Definition Remove (h : N) (ds : list (N * Callback)) : list (N * Callback) :=
  if (h =? 0)%N then ds else filter (λ d, d.1 ≠ h) ds.

Section Panel_.

Variable UArticyDatabase : Type.
Variable GetImportedPackageNames : UArticyDatabase → list FString.
Variable GetMutableOriginal : option UArticyDatabase.
Variable IsLoadingAssets : bool.

(** [CustomizeDetails] on the panel. *)
Definition Customize (p : Panel) : Panel :=
  {| Customization :=
       CustomizeDetails UArticyDatabase GetImportedPackageNames GetMutableOriginal
         IsLoadingAssets (Customization p);
     OnImportFinished := OnImportFinished p;
     ForceRefreshDetails := ForceRefreshDetails p |}.

End Panel_.

(** [FArticyPluginSettingsCustomization::~FArticyPluginSettingsCustomization()] *)
Definition Destructor (p : Panel) : Panel :=
  let w := Customization p in
  {| Customization :=
       {| LayoutBuilder := LayoutBuilder w;
          RefreshHandle := RefreshHandle w;
          DetailLayout := DetailLayout w;
          OnAssetsGenerated := Remove (RefreshHandle w) (OnAssetsGenerated w);
          OnFilesLoaded := OnFilesLoaded w;
          GNextID := GNextID w |};
     OnImportFinished := OnImportFinished p;
     ForceRefreshDetails := ForceRefreshDetails p |}.

(** [void FArticyPluginSettingsCustomization::RefreshSettingsUI()];
    [ensure(LayoutBuilder)] only reports, the pointer is used regardless. *)
Definition RefreshSettingsUI (p : Panel) : ToolTip.Result Panel :=
  let w := Customization p in
  _ ← ToolTip.deref (if LayoutBuilder w then Some () else None);
  mret {| Customization := w;
          OnImportFinished := Remove (RefreshHandle w) (OnImportFinished p);
          ForceRefreshDetails := S (ForceRefreshDetails p) |}.

End SettingsPanel.

(* ===================================================================== *)
(** * Properties                                                         *)
(* ===================================================================== *)

(** ** The global-variables generator *)

Section GenerateCode_properties.

Import CodeGen.

Variable GetGlobalVarsClassname : UArticyImportData → bool → FString.
Variable GetCPPTypeString : FArticyGVar → FString.
Variable GetCPPValueString : FArticyGVar → FString.

Local Abbreviation GenerateCode :=
  (CodeGen.GenerateCode GetGlobalVarsClassname GetCPPTypeString GetCPPValueString).
Local Abbreviation NamespaceClass := (CodeGen.NamespaceClass GetCPPTypeString GetCPPValueString).
Local Abbreviation GlobalVarsClass := (CodeGen.GlobalVarsClass GetGlobalVarsClassname).
Local Abbreviation HeaderContent :=
  (CodeGen.HeaderContent GetGlobalVarsClassname GetCPPTypeString GetCPPValueString).

(** *** Generator code only appends *)

Lemma Appends_skip : Appends skip.
Proof. intros h. unfold skip. by rewrite app_nil_r. Qed.

Lemma Appends_seq (a b : Gen) : Appends a → Appends b → Appends (a ;; b)%gen.
Proof.
  intros Ha Hb h. unfold seq.
  rewrite (Hb (a h)), (Hb (a [])), (Ha h). by rewrite app_assoc.
Qed.

Lemma Appends_emit (c : Call) : Appends (λ h, h ++ [c]).
Proof. intros h. reflexivity. Qed.

Lemma Appends_for_each {A : Type} (xs : list A) (body : A → Gen) :
  (∀ x, Appends (body x)) → Appends (for_each xs body).
Proof.
  intros Hbody. induction xs as [|x xs IH]; simpl.
  - apply Appends_skip.
  - apply Appends_seq; [apply Hbody | exact IH].
Qed.

Lemma seq_nil (a b : Gen) : Appends b → (a ;; b)%gen [] = a [] ++ b [].
Proof. intros Hb. unfold seq. apply Hb. Qed.

Lemma for_each_nil {A : Type} (xs : list A) (body : A → Gen) :
  (∀ x, Appends (body x)) → for_each xs body [] = xs ≫= λ x, body x [].
Proof.
  intros Hbody. induction xs as [|x xs IH]; [done|].
  simpl. rewrite seq_nil by (by apply Appends_for_each). by rewrite IH.
Qed.

Create HintDb gen discriminated.

#[local] Hint Resolve Appends_skip Appends_seq Appends_for_each : gen.
#[local] Hint Extern 1 (Appends header.Line0) => apply Appends_emit : gen.
#[local] Hint Extern 1 (Appends (header.Line _)) => apply Appends_emit : gen.
#[local] Hint Extern 1 (Appends (header.Line4 _ _ _ _)) => apply Appends_emit : gen.
#[local] Hint Extern 1 (Appends (header.Comment _)) => apply Appends_emit : gen.
#[local] Hint Extern 1 (Appends (header.Variable_ _ _ _ _ _ _)) => apply Appends_emit : gen.
#[local] Hint Extern 1 (Appends (header.Class _ _ _ _)) => apply Appends_emit : gen.
#[local] Hint Extern 1 (Appends (header.Method _ _ _ _ _)) => apply Appends_emit : gen.

Lemma Appends_NamespaceClass (ns : FArticyGVNamespace) : Appends (NamespaceClass ns).
Proof. unfold CodeGen.NamespaceClass. auto with gen. Qed.

Lemma Appends_GlobalVarsClass (Data : UArticyImportData) : Appends (GlobalVarsClass Data).
Proof. unfold CodeGen.GlobalVarsClass. auto with gen. Qed.

#[local] Hint Resolve Appends_NamespaceClass Appends_GlobalVarsClass : gen.

(** Unfolds a sequence of generator calls run on the empty header into the
    concatenation of what each call emits. *)
Ltac run_gen :=
  repeat first
    [ rewrite seq_nil by auto 20 with gen
    | rewrite for_each_nil by (intros; auto 20 with gen) ].

(** *** Reading back what loops emit *)

Lemma omap_bind {A B C : Type} (f : B → option C) (g : A → list B) (xs : list A) :
  omap f (xs ≫= g) = xs ≫= λ x, omap f (g x).
Proof.
  induction xs as [|x xs IH]; [done|].
  rewrite !bind_cons, omap_app. by rewrite IH.
Qed.

Lemma bind_singleton {A B : Type} (f : A → B) (xs : list A) :
  (xs ≫= λ x, [f x]) = f <$> xs.
Proof. induction xs as [|x xs IH]; [done|]. rewrite bind_cons, IH. done. Qed.

Lemma bind_nil_all {A B : Type} (xs : list A) : (xs ≫= λ _, @nil B) = [].
Proof. induction xs as [|x xs IH]; [done|]. by rewrite bind_cons, IH. Qed.

Lemma Forall2_fmap_diag {A B : Type} (P : A → B → Prop) (f : A → B) (xs : list A) :
  (∀ x, P x (f x)) → Forall2 P xs (f <$> xs).
Proof. intros HP. induction xs as [|x xs IH]; simpl; constructor; auto. Qed.

Lemma classes_NamespaceClass (ns : FArticyGVNamespace) :
  ∃ c, classes (NamespaceClass ns []) = [c] ∧
       IsNamespaceClass GetCPPTypeString GetCPPValueString ns c.
Proof.
  unfold CodeGen.NamespaceClass. run_gen.
  eexists. split; [reflexivity|].
  unfold IsNamespaceClass. cbn [Classname bUClass Content].
  split; [done|]. split; [done|].
  run_gen. unfold variables, methods. rewrite !omap_app, !omap_bind.
  cbn -[Printf String.append for_each].
  rewrite bind_singleton, !bind_nil_all, app_nil_r. split.
  - by apply Forall2_fmap_diag.
  - eexists _, _. split; [reflexivity|]. cbn [MethodName ReturnType Body].
    repeat split.
    + run_gen. unfold lines. rewrite omap_bind.
      cbn -[Printf String.append]. by rewrite bind_singleton.
    + run_gen. unfold lines. rewrite omap_app, omap_bind. reflexivity.
Qed.

Lemma classes_GlobalVarsClass (Data : UArticyImportData) :
  ∃ c, classes (GlobalVarsClass Data []) = [c] ∧
       IsGlobalVariablesClass GetGlobalVarsClassname Data c.
Proof.
  unfold CodeGen.GlobalVarsClass.
  eexists. split; [reflexivity|].
  unfold IsGlobalVariablesClass. cbn [Classname bUClass Content].
  split; [done|]. split; [done|].
  run_gen. unfold variables, methods. rewrite !omap_app, !omap_bind.
  cbn -[Printf String.append for_each].
  rewrite bind_singleton, !bind_nil_all, app_nil_r. split.
  - by apply Forall2_fmap_diag.
  - eexists _, _, _. split; [reflexivity|]. cbn [MethodName ReturnType Body].
    repeat split.
    + run_gen. unfold lines. rewrite !omap_app, omap_bind.
      cbn -[Printf String.append]. by rewrite bind_singleton.
    + run_gen. unfold lines. rewrite omap_app, omap_bind. reflexivity.
Qed.

Lemma classes_namespaces (nss : list FArticyGVNamespace) :
  ∃ cs, classes (nss ≫= λ ns, NamespaceClass ns []) = cs ∧
        Forall2 (IsNamespaceClass GetCPPTypeString GetCPPValueString) nss cs.
Proof.
  induction nss as [|ns nss (cs & Hcs & IH)].
  - exists []. split; [done | constructor].
  - destruct (classes_NamespaceClass ns) as (c & Hc & Hns).
    exists (c :: cs). split; [|by constructor].
    rewrite bind_cons. unfold classes in *. by rewrite omap_app, Hc, Hcs.
Qed.

(** C7: with a null [Data] pointer [GenerateCode] returns at once: no code
    file is produced and [OutFile] keeps its value. *)
Theorem GenerateCode_null_data (OutFile : FString) :
  GenerateCode None OutFile = (OutFile, []).
Proof. reflexivity. Qed.

(** C1: for non-null import data, [GenerateCode] sets [OutFile] to the
    global-variables class name and writes one header, named after it.  The
    classes of that header are, in the order of [GetGlobalVars().Namespaces],
    one [UArticyBaseVariableSet] subclass per namespace (one [UPROPERTY]
    pointer, one [CreateDefaultSubobject] line, one [Init] call and one
    [Variables.Add] call per variable), followed by a single
    [UArticyGlobalVariables] subclass (one pointer per namespace, a
    constructor creating each namespace and then calling [Init()], an [Init]
    method initialising each namespace and adding it to [VariableSets]). *)
Theorem GenerateCode_tree_walk (Data : UArticyImportData) (OutFile : FString) :
  ∃ file nsClasses gvClass,
    GenerateCode (Some Data) OutFile = (GetGlobalVarsClassname Data true, [file]) ∧
    Path file = GetGlobalVarsClassname Data true +:+ ".h" ∧
    bHeader file = true ∧
    classes (Calls file) = nsClasses ++ [gvClass] ∧
    Forall2 (IsNamespaceClass GetCPPTypeString GetCPPValueString)
            (Namespaces (GetGlobalVars Data)) nsClasses ∧
    IsGlobalVariablesClass GetGlobalVarsClassname Data gvClass.
Proof.
  destruct (classes_namespaces (Namespaces (GetGlobalVars Data))) as (cs & Hcs & Hnss).
  destruct (classes_GlobalVarsClass Data) as (gv & Hgv & Hglobal).
  eexists _, cs, gv. split; [reflexivity|].
  cbn [Path bHeader Calls CodeFileGenerator].
  split; [reflexivity|]. split; [reflexivity|]. split; [|by split].
  unfold CodeGen.HeaderContent. run_gen.
  unfold classes in *. rewrite !omap_app, Hcs, Hgv. reflexivity.
Qed.

End GenerateCode_properties.

(** The header generated for the example project: its name, its classes,
    and the lines of the [Init] method of the namespace class. *)
Example GenerateCode_Demo :
  let r := CodeGen.GenerateCode CodeGen.ExampleClassname CodeGen.ExampleTypeString
             CodeGen.ExampleValueString (Some CodeGen.ExampleData) "Unset" in
  r.1 = "DemoGlobalVariables" ∧
  (λ f, (CodeGen.Path f, CodeGen.Classname <$> CodeGen.classes (CodeGen.Calls f))) <$> r.2 =
    [("DemoGlobalVariables.h",
      ["UDemoGameStateVariables : public UArticyBaseVariableSet";
       "UDemoGlobalVariables : public UArticyGlobalVariables"])] ∧
  (λ f, (λ c, (λ m, CodeGen.lines (CodeGen.Body m))
                <$> drop 1 (CodeGen.methods (CodeGen.Content c)))
          <$> take 1 (CodeGen.classes (CodeGen.Calls f))) <$> r.2 =
    [[[[ "awake->Init<UArticyBool>(this, Store, TEXT(" +:+ dq +:+ "GameState.awake" +:+ dq
         +:+ "), true);";
         "this->Variables.Add(awake);";
         "health->Init<UArticyInt>(this, Store, TEXT(" +:+ dq +:+ "GameState.health" +:+ dq
         +:+ "), 1);";
         "this->Variables.Add(health);" ]]]].
Proof. vm_compute. repeat split. Qed.

(** ** The package load settings *)

Section UpdatePackageSettings_properties.

Import PluginSettings.

Variable UArticyDatabase : Type.
Variable GetImportedPackageNames : UArticyDatabase → list FString.
Variable IsPackageDefaultPackage : UArticyDatabase → FString → bool.
Variable ChangePackageDefault : UArticyDatabase → FString → bool → UArticyDatabase.

Local Abbreviation World := (PluginSettings.World UArticyDatabase).
Local Abbreviation ApplyPreviousSettings :=
  (PluginSettings.ApplyPreviousSettings GetImportedPackageNames ChangePackageDefault).
Local Abbreviation UpdatePackageSettings :=
  (PluginSettings.UpdatePackageSettings
     GetImportedPackageNames IsPackageDefaultPackage ChangePackageDefault).

(** *** Names that differ in case only are one name to every operation *)

Lemma Contains_cons (x : FString) (l : list FString) (Name : FString) :
  Contains (x :: l) Name = bool_decide (FString_eq x Name) || Contains l Name.
Proof.
  unfold Contains. apply eq_bool_prop_intro.
  rewrite orb_True, !bool_decide_spec, Exists_cons. done.
Qed.

Lemma Contains_nil (Name : FString) : Contains [] Name = false.
Proof. apply bool_decide_eq_false_2. by intros ?%Exists_nil. Qed.

Lemma Contains_respects (l : list FString) (a b : FString) :
  FString_eq a b → Contains l a = Contains l b.
Proof.
  intros Hab. unfold Contains. apply bool_decide_ext.
  split; intros H; (eapply Exists_impl; [exact H|]); intros x Hx.
  - by transitivity a.
  - transitivity b; [done | by symmetry].
Qed.

Lemma Contains_elem_of (l : list FString) (Name : FString) :
  Name ∈ l → Contains l Name = true.
Proof.
  intros Hin. apply bool_decide_eq_true_2, Exists_exists. by exists Name.
Qed.

Lemma Contains_keys (m : list (FString * bool)) (Name : FString) :
  Contains (GenerateKeyArray m) Name = MapContains m Name.
Proof.
  unfold Contains, MapContains, GenerateKeyArray. apply bool_decide_ext.
  by rewrite Exists_fmap.
Qed.

Lemma MapContains_cons (p : FString * bool) (m : list (FString * bool)) (Name : FString) :
  MapContains (p :: m) Name = bool_decide (FString_eq p.1 Name) || MapContains m Name.
Proof.
  unfold MapContains. apply eq_bool_prop_intro.
  rewrite orb_True, !bool_decide_spec, Exists_cons. done.
Qed.

Lemma MapContains_Find (m : list (FString * bool)) (Name : FString) :
  MapContains m Name = bool_decide (is_Some (MapFind m Name)).
Proof.
  induction m as [|[k v] m IH]; cbn [MapFind].
  - symmetry. apply bool_decide_eq_false_2. by intros [? ?].
  - rewrite MapContains_cons. cbn [fst]. case_decide as Hk.
    + rewrite (bool_decide_eq_true_2 _ Hk). symmetry. by apply bool_decide_eq_true_2.
    + by rewrite (bool_decide_eq_false_2 _ Hk).
Qed.

Lemma MapFind_None (m : list (FString * bool)) (Name : FString) :
  MapContains m Name = false → MapFind m Name = None.
Proof.
  rewrite MapContains_Find. intros H%bool_decide_eq_false.
  destruct (MapFind m Name); [|done]. destruct H. eauto.
Qed.

Lemma MapFind_Some (m : list (FString * bool)) (Name : FString) :
  MapContains m Name = true → is_Some (MapFind m Name).
Proof. rewrite MapContains_Find. by intros H%bool_decide_eq_true. Qed.

Lemma MapFind_respects (m : list (FString * bool)) (a b : FString) :
  FString_eq a b → MapFind m a = MapFind m b.
Proof.
  intros Hab. induction m as [|[k v] m IH]; [done|]. cbn [MapFind].
  rewrite IH. destruct (decide (FString_eq k a)) as [Ha|Ha].
  - rewrite decide_True; [done | by transitivity a].
  - rewrite decide_False; [done|]. intros Hb. apply Ha.
    transitivity b; [done | by symmetry].
Qed.

Lemma MapFind_remove (x : FString) (m : list (FString * bool)) (Name : FString) :
  MapFind (MapRemove x m) Name = if decide (FString_eq Name x) then None else MapFind m Name.
Proof.
  unfold MapRemove. induction m as [|[k v] m IH].
  - by case_decide.
  - destruct (decide (FString_eq k x)) as [Hkx|Hkx].
    + rewrite filter_cons_False by (cbn; tauto). rewrite IH. cbn [MapFind].
      case_decide as Hn; [done|]. rewrite decide_False; [done|].
      intros Hk. apply Hn. transitivity k; [by symmetry | done].
    + rewrite filter_cons_True by done. cbn [MapFind]. rewrite IH.
      case_decide as Hk; [|done]. rewrite decide_False; [done|].
      intros Hn. apply Hkx. by transitivity Name.
Qed.

Lemma MapFind_app (m m' : list (FString * bool)) (Name : FString) :
  MapFind (m ++ m') Name =
  match MapFind m Name with Some v => Some v | None => MapFind m' Name end.
Proof.
  induction m as [|[k v] m IH]; [done|]. cbn [app MapFind]. by case_decide.
Qed.

Lemma MapFind_add (x : FString) (v : bool) (m : list (FString * bool)) (Name : FString) :
  MapFind (MapAdd x v m) Name = if decide (FString_eq Name x) then Some v else MapFind m Name.
Proof.
  unfold MapAdd. destruct (MapContains m x) eqn:Hx.
  - destruct (decide (FString_eq Name x)) as [Hn|Hn].
    + revert Hx. induction m as [|[k w] m IH]; [done|].
      rewrite MapContains_cons. cbn [fst fmap list_fmap].
      destruct (decide (FString_eq k x)) as [Hk|Hk]; cbn [MapFind]; intros Hx.
      * rewrite decide_True; [done | by symmetry].
      * rewrite (bool_decide_eq_false_2 _ Hk) in Hx. cbn [orb] in Hx.
        rewrite decide_False; [by apply IH|].
        intros Hkn. apply Hk. by transitivity Name.
    + clear Hx. induction m as [|[k w] m IH]; [done|]. cbn [fmap list_fmap fst].
      destruct (decide (FString_eq k x)) as [Hk|Hk]; cbn [MapFind].
      * rewrite decide_False by (intros Hxn; apply Hn; by symmetry).
        rewrite decide_False.
        -- apply IH.
        -- intros Hkn. apply Hn. transitivity k; [by symmetry | done].
      * rewrite IH. done.
  - rewrite MapFind_app. cbn [MapFind].
    destruct (decide (FString_eq Name x)) as [Hn|Hn].
    + rewrite (MapFind_respects m Name x Hn), (MapFind_None _ _ Hx).
      rewrite decide_True; [done | by symmetry].
    + rewrite decide_False by (intros Hxn; apply Hn; by symmetry).
      by destruct (MapFind m Name).
Qed.

(** *** The two loops *)

(** The first loop removes exactly the current names that match no
    imported name. *)
Lemma RemoveOutdated_find (Imported Current : list FString) (m : list (FString * bool))
    (Name : FString) :
  MapFind (RemoveOutdated Imported Current m) Name =
  if Contains Current Name && negb (Contains Imported Name) then None else MapFind m Name.
Proof.
  unfold RemoveOutdated. revert m.
  induction Current as [|x Current IH]; intros m; cbn [foldl].
  - by rewrite Contains_nil.
  - rewrite IH, Contains_cons. clear IH.
    assert (MapFind (if negb (Contains Imported x) then MapRemove x m else m) Name
            = if bool_decide (FString_eq x Name) && negb (Contains Imported Name)
              then None else MapFind m Name) as ->.
    { case_bool_decide as Hx; cbn [andb].
      - rewrite (Contains_respects Imported x Name Hx).
        destruct (Contains Imported Name); cbn [negb]; [done|].
        rewrite MapFind_remove, decide_True; [done | by symmetry].
      - destruct (Contains Imported x); cbn [negb]; [done|].
        rewrite MapFind_remove, decide_False; [done|]. intros Hn. apply Hx. by symmetry. }
    by destruct (Contains Current Name), (bool_decide (FString_eq x Name)),
      (Contains Imported Name).
Qed.

(** The imported spelling that gives an added name its value: the last
    imported name matching it. *)
Local Abbreviation LastImported Imported Name :=
  (last (filter (λ imported_name, FString_eq imported_name Name) Imported)).

(** The second loop adds exactly the imported names that match no current
    name. *)
Lemma AddNew_find (db : UArticyDatabase) (Imported Current : list FString)
    (m : list (FString * bool)) (Name : FString) :
  MapFind (AddNew IsPackageDefaultPackage db Imported Current m) Name =
  if Contains Current Name then MapFind m Name
  else match LastImported Imported Name with
       | Some Spelling => Some (IsPackageDefaultPackage db Spelling)
       | None => MapFind m Name
       end.
Proof.
  unfold AddNew. revert m.
  induction Imported as [|x Imported IH]; intros m; cbn [foldl].
  - by destruct (Contains Current Name).
  - rewrite IH. clear IH. destruct (decide (FString_eq x Name)) as [Hx|Hx].
    + rewrite filter_cons_True by done.
      rewrite (Contains_respects Current x Name Hx).
      destruct (Contains Current Name); cbn [negb]; [done|].
      rewrite last_cons. destruct (last _); [done|].
      rewrite MapFind_add, decide_True; [done | by symmetry].
    + rewrite filter_cons_False by done.
      assert (MapFind (if negb (Contains Current x)
                       then MapAdd x (IsPackageDefaultPackage db x) m else m) Name
              = MapFind m Name) as ->; [|done].
      destruct (Contains Current x); cbn [negb]; [done|].
      rewrite MapFind_add, decide_False; [done|]. intros Hn. apply Hx. by symmetry.
Qed.

Lemma LastImported_Contains (Imported : list FString) (Name : FString) :
  match LastImported Imported Name with
  | Some Spelling =>
      Spelling ∈ Imported ∧ FString_eq Spelling Name ∧ Contains Imported Name = true
  | None => Contains Imported Name = false
  end.
Proof.
  destruct (last _) as [Spelling|] eqn:Hlast.
  - apply last_Some_elem_of, list_elem_of_filter in Hlast as [Hmatch Hin].
    split; [done|]. split; [done|].
    apply bool_decide_eq_true_2, Exists_exists. by exists Spelling.
  - apply last_None in Hlast. apply bool_decide_eq_false_2.
    intros (x & Hin & Hx)%Exists_exists.
    assert (x ∈ filter (λ n, FString_eq n Name) Imported) as Hf
      by (by apply list_elem_of_filter).
    rewrite Hlast in Hf. by apply elem_of_nil in Hf.
Qed.

(** [ApplyPreviousSettings] is [const]: it writes to the database only. *)
Lemma ApplyPreviousSettings_step_settings (acc : UArticyDatabase * World) (Name : FString) :
  PackageLoadSettings (ApplyPreviousSettings_step ChangePackageDefault acc Name).2
  = PackageLoadSettings acc.2.
Proof.
  destruct acc as [db w]. unfold ApplyPreviousSettings_step.
  by destruct (MapFind (GetDefaultSettings w) Name).
Qed.

Lemma ApplyPreviousSettings_settings (w : World) :
  PackageLoadSettings (ApplyPreviousSettings w) = PackageLoadSettings w.
Proof.
  unfold PluginSettings.ApplyPreviousSettings.
  destruct (GetMutableOriginal w) as [db|]; [|done].
  assert (∀ names acc,
    PackageLoadSettings (foldl (ApplyPreviousSettings_step ChangePackageDefault) acc names).2
    = PackageLoadSettings acc.2) as Hfold.
  { induction names as [|n names IH]; intros acc; [done|].
    cbn [foldl]. rewrite IH. apply ApplyPreviousSettings_step_settings. }
  specialize (Hfold (GetImportedPackageNames db) (db, w)).
  destruct (foldl _ _ _) as [db' w']. exact Hfold.
Qed.

(** The settings map after the two loops of [UpdatePackageSettings]. *)
Local Abbreviation Looped w db :=
  (AddNew IsPackageDefaultPackage db (GetImportedPackageNames db)
     (GenerateKeyArray (PackageLoadSettings w))
     (RemoveOutdated (GetImportedPackageNames db)
        (GenerateKeyArray (PackageLoadSettings w)) (PackageLoadSettings w))).

Lemma UpdatePackageSettings_settings (w : World) (db : UArticyDatabase) :
  GetMutableOriginal w = Some db →
  PackageLoadSettings (UpdatePackageSettings w) = Looped w db.
Proof.
  intros Hdb. unfold PluginSettings.UpdatePackageSettings. rewrite Hdb.
  by rewrite ApplyPreviousSettings_settings.
Qed.

(** What [UpdatePackageSettings] leaves under each name. *)
Lemma UpdatePackageSettings_find (w : World) (db : UArticyDatabase) (Name : FString) :
  GetMutableOriginal w = Some db →
  MapFind (PackageLoadSettings (UpdatePackageSettings w)) Name =
  if MapContains (PackageLoadSettings w) Name
  then (if Contains (GetImportedPackageNames db) Name
        then MapFind (PackageLoadSettings w) Name else None)
  else match LastImported (GetImportedPackageNames db) Name with
       | Some Spelling => Some (IsPackageDefaultPackage db Spelling)
       | None => None
       end.
Proof.
  intros Hdb. rewrite (UpdatePackageSettings_settings _ _ Hdb).
  rewrite AddNew_find, RemoveOutdated_find, Contains_keys.
  destruct (MapContains (PackageLoadSettings w) Name) eqn:Hkey.
  - cbn [andb]. by destruct (Contains (GetImportedPackageNames db) Name).
  - cbn [andb]. by rewrite (MapFind_None _ _ Hkey).
Qed.

Lemma UpdatePackageSettings_contains (w : World) (db : UArticyDatabase) (Name : FString) :
  GetMutableOriginal w = Some db →
  MapContains (PackageLoadSettings (UpdatePackageSettings w)) Name
  = Contains (GetImportedPackageNames db) Name.
Proof.
  intros Hdb. rewrite MapContains_Find, (UpdatePackageSettings_find _ _ _ Hdb).
  pose proof (LastImported_Contains (GetImportedPackageNames db) Name) as Hlast.
  destruct (MapContains (PackageLoadSettings w) Name) eqn:Hkey.
  - destruct (Contains (GetImportedPackageNames db) Name).
    + apply bool_decide_eq_true_2. by apply MapFind_Some.
    + apply bool_decide_eq_false_2. by intros [? ?].
  - destruct (last _) as [Spelling|].
    + destruct Hlast as (_ & _ & ->). apply bool_decide_eq_true_2. eauto.
    + rewrite Hlast. apply bool_decide_eq_false_2. by intros [? ?].
Qed.

(** *** Entries, with their spelling *)

Lemma elem_of_RemoveOutdated (Imported Current : list FString) (m : list (FString * bool))
    (p : FString * bool) :
  p ∈ m → Contains Imported p.1 = true → p ∈ RemoveOutdated Imported Current m.
Proof.
  unfold RemoveOutdated. revert m.
  induction Current as [|x Current IH]; intros m Hin Himported; [done|].
  cbn [foldl]. apply IH; [|done].
  destruct (Contains Imported x) eqn:Hx; cbn [negb]; [done|].
  unfold MapRemove. apply list_elem_of_filter. split; [|done].
  intros Hpx. rewrite (Contains_respects Imported p.1 x Hpx) in Himported. congruence.
Qed.

Lemma RemoveOutdated_subset (Imported Current : list FString) (m : list (FString * bool))
    (p : FString * bool) :
  p ∈ RemoveOutdated Imported Current m → p ∈ m.
Proof.
  unfold RemoveOutdated. revert m.
  induction Current as [|x Current IH]; intros m Hin; [done|].
  cbn [foldl] in Hin. apply IH in Hin.
  destruct (negb (Contains Imported x)); [|done].
  unfold MapRemove in Hin. by apply list_elem_of_filter in Hin as [_ ?].
Qed.

Lemma elem_of_MapAdd (x : FString) (v : bool) (m : list (FString * bool))
    (p : FString * bool) :
  p ∈ MapAdd x v m → p ∈ m ∨ p = (x, v).
Proof.
  unfold MapAdd. destruct (MapContains m x).
  - intros (q & -> & Hq)%list_elem_of_fmap. case_decide; [by right | by left].
  - intros [?|Hnew]%elem_of_app; [by left|].
    apply list_elem_of_singleton in Hnew as ->. by right.
Qed.

Lemma MapAdd_keeps (x : FString) (v : bool) (m : list (FString * bool))
    (p : FString * bool) :
  p ∈ m → ¬ FString_eq p.1 x → p ∈ MapAdd x v m.
Proof.
  intros Hin Hne. unfold MapAdd. destruct (MapContains m x).
  - apply list_elem_of_fmap. exists p. split; [|done]. by rewrite decide_False.
  - apply elem_of_app. by left.
Qed.

Lemma elem_of_AddNew (db : UArticyDatabase) (Imported Current : list FString)
    (m : list (FString * bool)) (p : FString * bool) :
  p ∈ AddNew IsPackageDefaultPackage db Imported Current m →
  p ∈ m ∨ (p.1 ∈ Imported ∧ p.2 = IsPackageDefaultPackage db p.1).
Proof.
  unfold AddNew. revert m.
  induction Imported as [|x Imported IH]; intros m Hin; [by left|].
  cbn [foldl] in Hin. apply IH in Hin as [Hin|[Hin Hv]].
  - destruct (negb (Contains Current x)); [|by left].
    apply elem_of_MapAdd in Hin as [?|Hnew]; [by left|]. subst p.
    right. split; [by left | done].
  - right. split; [by right | done].
Qed.

Lemma AddNew_keeps (db : UArticyDatabase) (Imported Current : list FString)
    (m : list (FString * bool)) (p : FString * bool) :
  p ∈ m → Contains Current p.1 = true →
  p ∈ AddNew IsPackageDefaultPackage db Imported Current m.
Proof.
  unfold AddNew. revert m.
  induction Imported as [|x Imported IH]; intros m Hin Hcurrent; [done|].
  cbn [foldl]. apply IH; [|done].
  destruct (Contains Current x) eqn:Hx; cbn [negb]; [done|].
  apply MapAdd_keeps; [done|]. intros Hpx.
  rewrite (Contains_respects Current p.1 x Hpx) in Hcurrent. congruence.
Qed.



End UpdatePackageSettings_properties.


(** On the example: [Prologue] is dropped, [Chapter1] keeps the user's
    choice, [Chapter2] arrives with the database's flag. *)
Example UpdatePackageSettings_example :
  PluginSettings.PackageLoadSettings
    (PluginSettings.UpdatePackageSettings
       PluginSettings.PackageNames PluginSettings.PackageIsDefault
       PluginSettings.PackageSetDefault PluginSettings.ExampleWorld)
  = [("Chapter1", false); ("Chapter2", false)].
Proof. vm_compute. reflexivity. Qed.

(** ** The editor module *)

Section EditorModule_properties.

Import EditorModule.

Lemma EngineCalls_call (c : EngineCall) (w : Editor) :
  EngineCalls (call c w) = EngineCalls w ++ [c].
Proof. reflexivity. Qed.

Lemma DirectoryWatchers_call (c : EngineCall) (w : Editor) :
  DirectoryWatchers (call c w) = DirectoryWatchers w.
Proof. reflexivity. Qed.

(** Every call of [StartupModule] only adds to the call log; [trace] is
    what it adds. *)
Lemma StartupModule_calls (env : Env) (w : Editor) :
  ∃ trace, EngineCalls (StartupModule env w) = EngineCalls w ++ trace ∧
           trace = EngineCalls (StartupModule env FreshEditor).
Proof.
  eexists. split; [|reflexivity].
  unfold StartupModule, RegisterToolTabs, RegisterArticyToolbar, RegisterPluginCommands,
    RegisterPluginSettings, RegisterGraphPinFactory, RegisterDetailCustomizations,
    RegisterDefaultArticyIdPropertyWidgetExtensions, RegisterConsoleCommands,
    RegisterAssetTypeActions.
  destruct (PLATFORM_WINDOWS env), (SettingsModuleLoaded env),
    (5 <=? ENGINE_MAJOR_VERSION env)%Z;
    rewrite !EngineCalls_call, <- !app_assoc; reflexivity.
Qed.

(** C4: each [StartupModule] call registers the property-type
    customizations of [ArticyId] and [ArticyRef], the class customizations
    of [ArticyPluginSettings] and [ArticyGlobalVariables], the settings
    section [ArticyImporter] under Project/Plugins when the Settings module
    is loaded, and two hidden nomad tab spawners, [Articy Menu] and
    [Articy GV Debugger]. *)
Theorem StartupModule_registrations (env : Env) (w : Editor) :
  ∃ trace,
    EngineCalls (StartupModule env w) = EngineCalls w ++ trace ∧
    PropertyTypeLayouts trace =
      [("ArticyId", "FArticyIdCustomization::MakeInstance");
       ("ArticyRef", "FArticyRefCustomization::MakeInstance")] ∧
    ClassLayouts trace =
      [("ArticyPluginSettings", "FArticyPluginSettingsCustomization::MakeInstance");
       ("ArticyGlobalVariables", "FArticyGVCustomization::MakeInstance")] ∧
    SettingsSections trace =
      (if SettingsModuleLoaded env then [("Project", "Plugins", "ArticyImporter")] else []) ∧
    TabSpawners trace =
      [(ArticyWindowTabID, mOnSpawnArticyMenuTab, "Articy Menu", Hidden);
       (ArticyGVDebuggerTabID, mOnSpawnArticyGVDebuggerTab, "Articy GV Debugger", Hidden)].
Proof.
  destruct (StartupModule_calls env w) as (trace & Hcalls & ->).
  eexists. split; [exact Hcalls|].
  unfold StartupModule, RegisterToolTabs, RegisterArticyToolbar, RegisterPluginCommands,
    RegisterPluginSettings, RegisterGraphPinFactory, RegisterDetailCustomizations,
    RegisterDefaultArticyIdPropertyWidgetExtensions, RegisterConsoleCommands,
    RegisterAssetTypeActions.
  destruct (PLATFORM_WINDOWS env), (SettingsModuleLoaded env),
    (5 <=? ENGINE_MAJOR_VERSION env)%Z; repeat split; reflexivity.
Qed.

(** *** The import status check *)

Lemma CheckAssets_None (assets : list FAssetData) :
  Forall (λ a, is_Some (GetAsset a)) assets → CheckAssets assets = None.
Proof.
  induction 1 as [|a assets [o Ha] _ IH]; [done|]. simpl. by rewrite Ha.
Qed.

Lemma CheckAssets_FileMissing (assets : list FAssetData) :
  Exists (λ a, GetAsset a = None) assets → CheckAssets assets = Some FileMissing.
Proof.
  induction 1 as [a assets Ha|a assets _ IH]; simpl.
  - by rewrite Ha.
  - by destruct (GetAsset a).
Qed.

(** C8: [CheckImportStatusValidity] checks in a fixed order, with fixed
    limits: no import-data asset gives [ImportDataAssetMissing]; otherwise
    fewer than 5 files in the generated source folder give [FileMissing];
    otherwise an asset of the generated folder that loads as null gives
    [FileMissing]; otherwise fewer than 3 such assets give
    [ImportantAssetMissing]; otherwise the result is [Valid]. *)
Theorem CheckImportStatusValidity_order (env : Env) :
  let ImportData := EnsureImportDataAsset env in
  let FileNames := FindFiles env (GetSourceFolder env) in
  let ArticyAssets := GetAssetsByPath env (GetArticyGeneratedFolder env) in
  let Validity := CheckImportStatusValidity env in
  (ImportData = None → Validity = ImportDataAssetMissing) ∧
  (is_Some ImportData → (length FileNames < 5)%nat → Validity = FileMissing) ∧
  (is_Some ImportData → (5 ≤ length FileNames)%nat →
     Exists (λ a, GetAsset a = None) ArticyAssets → Validity = FileMissing) ∧
  (is_Some ImportData → (5 ≤ length FileNames)%nat →
     Forall (λ a, is_Some (GetAsset a)) ArticyAssets →
     (length ArticyAssets < 3)%nat → Validity = ImportantAssetMissing) ∧
  (is_Some ImportData → (5 ≤ length FileNames)%nat →
     Forall (λ a, is_Some (GetAsset a)) ArticyAssets →
     (3 ≤ length ArticyAssets)%nat → Validity = Valid).
Proof.
  intros ImportData FileNames ArticyAssets Validity.
  subst Validity. unfold CheckImportStatusValidity, Num.
  fold ImportData FileNames ArticyAssets.
  split; [by intros ->|].
  repeat split; intros [D ->] Hfiles.
  - rewrite (proj2 (Z.ltb_lt _ _)) by lia. done.
  - intros Hnull. rewrite (proj2 (Z.ltb_ge _ _)) by lia.
    by rewrite (CheckAssets_FileMissing _ Hnull).
  - intros Hall Hassets. rewrite (proj2 (Z.ltb_ge _ _)) by lia.
    rewrite (CheckAssets_None _ Hall). by rewrite (proj2 (Z.ltb_lt _ _)) by lia.
  - intros Hall Hassets. rewrite (proj2 (Z.ltb_ge _ _)) by lia.
    rewrite (CheckAssets_None _ Hall). by rewrite (proj2 (Z.ltb_ge _ _)) by lia.
Qed.

Example CheckImportStatusValidity_complete :
  CheckImportStatusValidity (CompleteImport Yes) = Valid.
Proof. reflexivity. Qed.

Example CheckImportStatusValidity_deleted :
  CheckImportStatusValidity (CodeFileDeleted Yes) = FileMissing.
Proof. reflexivity. Qed.

(** *** The directory watcher *)

Lemma DirectoryWatchers_StartupModule (env : Env) (w : Editor) :
  DirectoryWatchers (StartupModule env w) = DirectoryWatchers w.
Proof.
  unfold StartupModule, RegisterToolTabs, RegisterArticyToolbar, RegisterPluginCommands,
    RegisterPluginSettings, RegisterGraphPinFactory, RegisterDetailCustomizations,
    RegisterDefaultArticyIdPropertyWidgetExtensions, RegisterConsoleCommands,
    RegisterAssetTypeActions.
  by destruct (PLATFORM_WINDOWS env), (SettingsModuleLoaded env),
    (5 <=? ENGINE_MAJOR_VERSION env)%Z.
Qed.

(** C3, as stated, fails: after [StartupModule] on a fresh editor nothing
    watches the generated source folder, so a change that leaves a generated
    code file missing opens no dialog, whatever the user would answer. *)
Lemma StartupModule_registers_no_watcher :
  CheckImportStatusValidity (CodeFileDeleted Yes) = FileMissing ∧
  IsWatching (GetSourceFolder (CodeFileDeleted Yes)) mOnGeneratedCodeChanged
    (StartupModule (CodeFileDeleted Yes) FreshEditor) = false ∧
  Prompts (EngineCalls
    (DirectoryChanged (CodeFileDeleted Yes) (λ w, w)
       (GetSourceFolder (CodeFileDeleted Yes)) ["ProjectGlobalVariables.h"]
       (StartupModule (CodeFileDeleted Yes) FreshEditor))) = [].
Proof. repeat split. Qed.

(** C3, amended: [StartupModule] registers no directory watcher (the call
    is disabled).  [RegisterDirectoryWatcher], when it is called, registers
    [OnGeneratedCodeChanged] for the generated source folder.  That callback
    does nothing unless [CheckImportStatusValidity] returns [FileMissing];
    when it does, the callback opens one yes/no dialog and, on Yes, forces a
    complete reimport. *)
Theorem directory_watcher_not_started (env : Env) (ForceCompleteReimport : Editor → Editor)
    (FileChanges : list FString) (w : Editor) :
  DirectoryWatchers (StartupModule env w) = DirectoryWatchers w ∧
  IsWatching (GetSourceFolder env) mOnGeneratedCodeChanged
    (RegisterDirectoryWatcher env w) = true ∧
  (CheckImportStatusValidity env ≠ FileMissing →
     OnGeneratedCodeChanged env ForceCompleteReimport FileChanges w = w) ∧
  (CheckImportStatusValidity env = FileMissing →
     ∃ prompt, IsYesNoPrompt MissingFileMessage MissingFileTitle prompt ∧
       OnGeneratedCodeChanged env ForceCompleteReimport FileChanges w =
         if decide (DialogAnswer env = Yes)
         then ForceCompleteReimport (call prompt w)
         else call prompt w).
Proof.
  split; [apply DirectoryWatchers_StartupModule|].
  split.
  { unfold IsWatching, RegisterDirectoryWatcher, RegisterDirectoryChangedCallback_Handle.
    cbn [GenerateNewID DirectoryWatchers]. apply bool_decide_eq_true.
    apply Exists_app. right. by constructor. }
  unfold OnGeneratedCodeChanged. split.
  - intros Hne. by rewrite decide_False.
  - intros ->. rewrite decide_True by done. unfold AskYesNo.
    eexists. split; [|reflexivity]. unfold IsYesNoPrompt.
    destruct (_ && _); auto.
Qed.

(** With the watcher registered by hand, deleting a code file does prompt,
    and a Yes forces the reimport (here: a marker call). *)
Example RegisterDirectoryWatcher_prompts :
  Prompts (EngineCalls
    (DirectoryChanged (CodeFileDeleted Yes) (call BringToFront)
       (GetSourceFolder (CodeFileDeleted Yes)) ["ProjectGlobalVariables.h"]
       (RegisterDirectoryWatcher (CodeFileDeleted Yes) FreshEditor)))
  = [(MissingFileMessage, MissingFileTitle)].
Proof. reflexivity. Qed.

(** *** The import queue *)

Lemma IsImportQueued_UnqueueImport (w : Editor) : IsImportQueued (UnqueueImport w) = false.
Proof. reflexivity. Qed.

Lemma EndPIE_UnqueueImport (w : Editor) :
  EndPIE (UnqueueImport w) =
  if (QueuedImportHandle w =? InvalidHandle)%N then EndPIE w
  else filter (λ d, d.1 ≠ QueuedImportHandle w) (EndPIE w).
Proof. reflexivity. Qed.

Lemma QueueImport_state (w : Editor) :
  IsImportQueued (QueueImport w) = true ∧
  QueuedImportHandle (QueueImport w) = N.succ (GNextID w) ∧
  EndPIE (QueueImport w) = EndPIE w ++ [(N.succ (GNextID w), mTriggerQueuedImport)].
Proof. by repeat split. Qed.

Lemma filter_fresh_handle (h : FDelegateHandle) (ds : list (FDelegateHandle * Method)) :
  Forall (λ d, d.1 ≠ h) ds → filter (λ d, d.1 ≠ h) ds = ds.
Proof.
  induction 1 as [|d ds Hd _ IH]; [done|].
  rewrite filter_cons_True by done. by rewrite IH.
Qed.

(** C10: [QueueImport] sets the queued flag and binds
    [TriggerQueuedImport] to [EndPIE] under a valid handle that it keeps;
    every [TriggerQueuedImport], whatever the reimport did, ends with the
    delegate under the kept handle removed, the handle reset and the flag
    cleared, so [IsImportQueued()] is false afterwards.  When the reimport
    leaves the queue alone, the delegates of [EndPIE] are those from before
    the import was queued. *)
Theorem import_queue_returns_to_idle (ReimportChanges : Editor → Editor) (b : bool)
    (w : Editor) :
  (IsImportQueued (QueueImport w) = true ∧
   QueuedImportHandle (QueueImport w) ≠ InvalidHandle ∧
   EndPIE (QueueImport w) =
     EndPIE w ++ [(QueuedImportHandle (QueueImport w), mTriggerQueuedImport)]) ∧
  (let reimported := ReimportChanges w in
   let idle := TriggerQueuedImport ReimportChanges b w in
   IsImportQueued idle = false ∧
   QueuedImportHandle idle = InvalidHandle ∧
   (QueuedImportHandle reimported ≠ InvalidHandle →
      ∀ m, (QueuedImportHandle reimported, m) ∉ EndPIE idle) ∧
   (∀ d, d ∈ EndPIE idle → d ∈ EndPIE reimported)) ∧
  (let queued := QueueImport w in
   QueuedImportHandle (ReimportChanges queued) = QueuedImportHandle queued →
   EndPIE (ReimportChanges queued) = EndPIE queued →
   Forall (λ d, (d.1 ≤ GNextID w)%N) (EndPIE w) →
   EndPIE (TriggerQueuedImport ReimportChanges b queued) = EndPIE w).
Proof.
  destruct (QueueImport_state w) as (Hflag & Hhandle & Hdelegates).
  split; [|split].
  - split; [done|]. rewrite Hhandle, Hdelegates. split; [|done].
    unfold InvalidHandle. lia.
  - intros reimported idle. subst idle. unfold TriggerQueuedImport. fold reimported.
    split; [done|]. split; [done|]. rewrite EndPIE_UnqueueImport. split.
    + intros Hvalid m. rewrite (proj2 (N.eqb_neq _ _)) by done.
      rewrite list_elem_of_filter. intros [Hne _]. by apply Hne.
    + intros d. destruct (_ =? _)%N; [done|].
      rewrite list_elem_of_filter. tauto.
  - intros queued Hkept Hsame Hfresh. subst queued.
    unfold TriggerQueuedImport. rewrite EndPIE_UnqueueImport, Hkept, Hsame, Hhandle.
    rewrite (proj2 (N.eqb_neq _ _)) by (unfold InvalidHandle; lia).
    rewrite Hdelegates, filter_app, filter_fresh_handle.
    + rewrite filter_cons_False; [by rewrite app_nil_r|]. cbn. by intros ?.
    + eapply Forall_impl; [exact Hfresh|]. cbn. intros d Hd. lia.
Qed.

(** Queue, leave play mode, trigger: the editor is idle again. *)
Example import_queue_round_trip :
  IsImportQueued (QueueImport FreshEditor) = true ∧
  IsImportQueued (TriggerQueuedImport (λ w, w) true (QueueImport FreshEditor)) = false ∧
  EndPIE (TriggerQueuedImport (λ w, w) true (QueueImport FreshEditor)) = [].
Proof. by repeat split. Qed.

End EditorModule_properties.

(** ** The object tooltip *)

Section CreateToolTipContent_properties.

Import ToolTip.

Variable FindAsset : FArticyId → option UArticyObject.

Local Abbreviation CreateToolTipContent := (ToolTip.CreateToolTipContent FindAsset).

(** The slot [AddToToolTipInfoBox] adds for a key, value and importance. *)
Local Abbreviation slot Key Value important :=
  {| KeyText := Key +:+ ":"; ValueText := Value; bImportant := important |}.

(** The tooltip is built whenever the speaker, if the object has one,
    resolves to an asset with a display name. *)
Lemma CreateToolTipContent_returns (Object : UArticyObject) :
  (∀ SpeakerId, ObjectWithSpeaker Object = Some SpeakerId →
                is_Some (CastToDisplayName (FindAsset SpeakerId))) →
  ∃ content, CreateToolTipContent (Some Object) = Returns content.
Proof.
  intros Hspeaker. unfold ToolTip.CreateToolTipContent. cbn [deref mbind Result_bind].
  destruct (ObjectWithDisplayName Object) as [d|]; [destruct (negb (IsEmpty d))|];
    (destruct (ObjectWithSpeaker Object) as [id|];
     [destruct (Hspeaker id eq_refl) as [n ->] | ]; cbn; eauto).
Qed.

(** It dereferences a null pointer whenever the object has a speaker that
    does not. *)
Lemma CreateToolTipContent_null_speaker (Object : UArticyObject) (SpeakerId : FArticyId) :
  ObjectWithSpeaker Object = Some SpeakerId →
  CastToDisplayName (FindAsset SpeakerId) = None →
  CreateToolTipContent (Some Object) = NullDereference.
Proof.
  intros Hid Hnull. unfold ToolTip.CreateToolTipContent. cbn [deref mbind Result_bind].
  rewrite Hid, Hnull.
  by destruct (ObjectWithDisplayName Object) as [d|]; [destruct (negb (IsEmpty d))|].
Qed.

(** C5 fails on the code for a valid object whose speaker does not resolve
    to an asset with a display name: no content is built, the speaker's
    display name is read through a null pointer.  For every other valid
    object the content is as the claim says: the title is the display name
    when the object provides a non-empty one, else the asset name; the info
    box holds, in this order, the speaker's display name when the object has
    a speaker, the quoted text when the object has a non-empty text, the
    asset name when the display name is the title, and always the class name
    in parentheses. *)
Theorem CreateToolTipContent_content_unless_null_speaker :
  (∀ Object : UArticyObject,
     let AssetName := GetName Object in
     let bUsingDisplayName :=
       match ObjectWithDisplayName Object with
       | Some DisplayName => negb (IsEmpty DisplayName)
       | None => false
       end in
     let Title :=
       match ObjectWithDisplayName Object with
       | Some DisplayName => if IsEmpty DisplayName then AssetName else DisplayName
       | None => AssetName
       end in
     let BelowSpeaker :=
       match ObjectWithText Object with
       | Some Text => if IsEmpty Text then [] else [slot "Text" (dq +:+ Text +:+ dq) true]
       | None => []
       end
       ++ (if bUsingDisplayName then [slot "Asset Name" AssetName false] else [])
       ++ [slot "Class" ("(" +:+ GetClassName Object +:+ ")") false] in
     CreateToolTipContent (Some Object) =
       match ObjectWithSpeaker Object with
       | Some SpeakerId =>
           match FindAsset SpeakerId with
           | Some Speaker =>
               match ObjectWithDisplayName Speaker with
               | Some DisplayName =>
                   Returns {| NameText := Title;
                              InfoBox := slot "Speaker" DisplayName true :: BelowSpeaker |}
               | None => NullDereference
               end
           | None => NullDereference
           end
       | None => Returns {| NameText := Title; InfoBox := BelowSpeaker |}
       end) ∧
  (∀ content,
     ToolTip.CreateToolTipContent NothingImported (Some Greeting) ≠ Returns content) ∧
  (∀ content,
     ToolTip.CreateToolTipContent HarbourImported (Some Greeting) ≠ Returns content).
Proof.
  split; [|split; intros content; discriminate].
  intros Object. cbv zeta.
  unfold ToolTip.CreateToolTipContent. cbn [deref mbind Result_bind].
  destruct (ObjectWithSpeaker Object) as [SpeakerId|].
  - destruct (FindAsset SpeakerId) as [Speaker|]; cbn [CastToDisplayName mbind option_bind].
    2: { by destruct (ObjectWithDisplayName Object) as [d|]; [destruct (IsEmpty d)|]. }
    destruct (ObjectWithDisplayName Speaker) as [SpeakerName|].
    2: { by destruct (ObjectWithDisplayName Object) as [d|]; [destruct (IsEmpty d)|]. }
    by destruct (ObjectWithDisplayName Object) as [d|]; [destruct (IsEmpty d)|];
      destruct (ObjectWithText Object) as [t|]; try destruct (IsEmpty t).
  - by destruct (ObjectWithDisplayName Object) as [d|]; [destruct (IsEmpty d)|];
      destruct (ObjectWithText Object) as [t|]; try destruct (IsEmpty t).
Qed.

End CreateToolTipContent_properties.

(** The tooltip of the dialogue line: speaker and quoted text, then the
    class; the empty display name leaves the asset name as the title. *)
Example CreateToolTipContent_Greeting :
  ToolTip.CreateToolTipContent ToolTip.AnnaImported (Some ToolTip.Greeting)
  = ToolTip.Returns
      {| ToolTip.NameText := "DFr_0100";
         ToolTip.InfoBox :=
           [ {| ToolTip.KeyText := "Speaker:"; ToolTip.ValueText := "Anna";
                ToolTip.bImportant := true |};
             {| ToolTip.KeyText := "Text:"; ToolTip.ValueText := dq +:+ "Hello." +:+ dq;
                ToolTip.bImportant := true |};
             {| ToolTip.KeyText := "Class:"; ToolTip.ValueText := "(DemoDialogueFragment)";
                ToolTip.bImportant := false |} ] |}.
Proof. reflexivity. Qed.

(** The tooltip of a character named Anna: the display name is the title,
    the asset name moves into the info box. *)
Example CreateToolTipContent_Anna :
  ToolTip.CreateToolTipContent ToolTip.NothingImported (Some ToolTip.Anna)
  = ToolTip.Returns
      {| ToolTip.NameText := "Anna";
         ToolTip.InfoBox :=
           [ {| ToolTip.KeyText := "Asset Name:"; ToolTip.ValueText := "Chr_Anna";
                ToolTip.bImportant := false |};
             {| ToolTip.KeyText := "Class:"; ToolTip.ValueText := "(DemoCharacter)";
                ToolTip.bImportant := false |} ] |}.
Proof. reflexivity. Qed.

(** C9 fails on the code: for a dialogue line whose speaker id resolves to
    no asset, and for one whose speaker asset has no display name,
    [CreateToolTipContent] calls [GetDisplayName] through a null pointer. *)
Theorem CreateToolTipContent_dereferences_null_speaker :
  ToolTip.CreateToolTipContent ToolTip.NothingImported (Some ToolTip.Greeting)
    = ToolTip.NullDereference ∧
  ToolTip.CreateToolTipContent ToolTip.HarbourImported (Some ToolTip.Greeting)
    = ToolTip.NullDereference.
Proof. split; reflexivity. Qed.

(** ** The settings panel *)

Section CustomizeDetails_properties.

Import SettingsCustomization.

Variable UArticyDatabase : Type.
Variable GetImportedPackageNames : UArticyDatabase → list FString.

Local Abbreviation CustomizeDetails :=
  (SettingsCustomization.CustomizeDetails UArticyDatabase GetImportedPackageNames).

(** The row added for a package name. *)
Local Abbreviation PackageRow PackageName :=
  {| FilterString := EmptyString; Widget := {| PackageToDisplay := PackageName |} |}.

Lemma foldl_snoc_fmap {A B : Type} (f : A → B) (init : list B) (xs : list A) :
  foldl (λ acc x, acc ++ [f x]) init xs = init ++ (f <$> xs).
Proof.
  revert init. induction xs as [|x xs IH]; intros init; simpl.
  - by rewrite app_nil_r.
  - rewrite IH. by rewrite <- app_assoc.
Qed.

Lemma EditCategory_lookup (c c' : FString) (layout : gmap FString (list Row)) :
  EditCategory c layout !! c' =
  if decide (c' = c) then Some (default [] (layout !! c)) else layout !! c'.
Proof.
  unfold EditCategory. destruct (layout !! c) as [rows|] eqn:Hc.
  - case_decide as Heq; [by subst|done].
  - case_decide as Heq; [subst; by rewrite lookup_insert_eq|].
    by rewrite lookup_insert_ne.
Qed.

Lemma AddCustomRows_lookup {A : Type} (c c' : FString) (g : A → Row) (xs : list A)
    (layout : gmap FString (list Row)) :
  foldl (λ layout x, AddCustomRow c (g x) layout) layout xs !! c' =
  if decide (c' = c) then (λ rows, rows ++ (g <$> xs)) <$> layout !! c
  else layout !! c'.
Proof.
  revert layout. induction xs as [|x xs IH]; intros layout; cbn [foldl].
  - case_decide as Heq; [|done]. subst. destruct (layout !! c); [|done].
    cbn. by rewrite app_nil_r.
  - rewrite IH. unfold AddCustomRow. case_decide as Heq.
    + rewrite lookup_alter_eq. destruct (layout !! c); [|done].
      cbn. by rewrite <- app_assoc.
    + by rewrite lookup_alter_ne.
Qed.

(** C6: with the database available, [CustomizeDetails] adds one
    [SPackageSettings] row per imported package name to the category
    [Default packages], in the order of the names, and touches no other
    category; with no database it adds no row and, exactly when the asset
    registry is still loading, binds a refresh of the panel to the end of
    file loading. *)
Theorem CustomizeDetails_rows (GetMutableOriginal : option UArticyDatabase)
    (IsLoadingAssets : bool) (w : World) :
  let w' := CustomizeDetails GetMutableOriginal IsLoadingAssets w in
  match GetMutableOriginal with
  | Some OriginalDatabase =>
      RowsOf "Default packages" w' =
        RowsOf "Default packages" w
        ++ ((λ PackageName, PackageRow PackageName)
              <$> GetImportedPackageNames OriginalDatabase) ∧
      (∀ c, c ≠ "Default packages" → DetailLayout w' !! c = DetailLayout w !! c) ∧
      OnFilesLoaded w' = OnFilesLoaded w
  | None =>
      DetailLayout w' = DetailLayout w ∧
      if IsLoadingAssets
      then ∃ h, OnFilesLoaded w' = OnFilesLoaded w ++ [(h, mRefreshSettingsUI)]
      else OnFilesLoaded w' = OnFilesLoaded w
  end.
Proof.
  intros w'. subst w'. unfold SettingsCustomization.CustomizeDetails.
  destruct GetMutableOriginal as [db|].
  - cbn [DetailLayout OnFilesLoaded]. unfold RowsOf. cbn [DetailLayout].
    rewrite foldl_snoc_fmap, app_nil_l. split; [|split; [|done]].
    + rewrite AddCustomRows_lookup, decide_True by done.
      rewrite EditCategory_lookup, decide_True by done. cbn.
      by rewrite <- list_fmap_compose.
    + intros c Hc. rewrite AddCustomRows_lookup, decide_False by done.
      by rewrite EditCategory_lookup, decide_False.
  - destruct IsLoadingAssets; cbn [DetailLayout OnFilesLoaded]; eauto.
Qed.

End CustomizeDetails_properties.

(* ===================================================================== *)
(** * Further properties                                                 *)
(* ===================================================================== *)

(** ** The generated header around its classes *)

Section GenerateCode_frame.

Import CodeGen.

Variable GetGlobalVarsClassname : UArticyImportData → bool → FString.
Variable GetCPPTypeString : FArticyGVar → FString.
Variable GetCPPValueString : FArticyGVar → FString.

Local Abbreviation GenerateCode :=
  (CodeGen.GenerateCode GetGlobalVarsClassname GetCPPTypeString GetCPPValueString).
Local Abbreviation NamespaceClass := (CodeGen.NamespaceClass GetCPPTypeString GetCPPValueString).
Local Abbreviation GlobalVarsClass := (CodeGen.GlobalVarsClass GetGlobalVarsClassname).

Create HintDb emit discriminated.

#[local] Hint Resolve Appends_skip Appends_seq Appends_for_each
  Appends_NamespaceClass Appends_GlobalVarsClass : emit.
#[local] Hint Extern 1 (Appends header.Line0) => apply Appends_emit : emit.
#[local] Hint Extern 1 (Appends (header.Line _)) => apply Appends_emit : emit.
#[local] Hint Extern 1 (Appends (header.Line4 _ _ _ _)) => apply Appends_emit : emit.
#[local] Hint Extern 1 (Appends (header.Comment _)) => apply Appends_emit : emit.
#[local] Hint Extern 1 (Appends (header.Variable_ _ _ _ _ _ _)) => apply Appends_emit : emit.
#[local] Hint Extern 1 (Appends (header.Class _ _ _ _)) => apply Appends_emit : emit.
#[local] Hint Extern 1 (Appends (header.Method _ _ _ _ _)) => apply Appends_emit : emit.

Ltac run_gen :=
  repeat first
    [ rewrite seq_nil by auto 20 with emit
    | rewrite for_each_nil by (intros; auto 20 with emit) ].

(** A plain text line, as [header->Line(text)] records it. *)
Local Abbreviation text s := (CLine (Some s) None).

Lemma lines_NamespaceClass (ns : FArticyGVNamespace) : lines (NamespaceClass ns []) = [].
Proof. unfold CodeGen.NamespaceClass. run_gen. reflexivity. Qed.

Lemma lines_namespaces (nss : list FArticyGVNamespace) :
  lines (nss ≫= λ ns, NamespaceClass ns []) = [].
Proof.
  unfold lines. rewrite omap_bind.
  induction nss as [|ns nss IH]; [done|].
  rewrite bind_cons, IH, app_nil_r. apply lines_NamespaceClass.
Qed.

Lemma length_classes_namespaces (nss : list FArticyGVNamespace) :
  length (classes (nss ≫= λ ns, NamespaceClass ns [])) = length nss.
Proof.
  destruct (classes_namespaces GetCPPTypeString GetCPPValueString nss) as (cs & -> & H).
  symmetry. by eapply Forall2_length.
Qed.

(** X1: whatever the namespaces, the header starts with the three
    includes, the include of [<class name>.generated.h] last among them,
    followed by the guarded warning push; it ends with the guarded warning
    pop; all classes, and no other text line, lie in between. *)
Theorem GenerateCode_header_frame (Data : UArticyImportData) (OutFile : FString) :
  let name := GetGlobalVarsClassname Data true in
  ∃ file body,
    GenerateCode (Some Data) OutFile = (name, [file]) ∧
    Calls file =
      [ text ("#include " +:+ dq +:+ "CoreUObject.h" +:+ dq);
        text ("#include " +:+ dq +:+ "ArticyGlobalVariables.h" +:+ dq);
        text ("#include " +:+ dq +:+ name +:+ ".generated.h" +:+ dq);
        text PS_GUARD;
        text "#pragma warning(push)";
        text ("#pragma warning(disable: 4883) //<disable " +:+ dq
              +:+ "optimization cannot be applied due to function size" +:+ dq
              +:+ " compile error.");
        text "#endif" ]
      ++ body
      ++ [ text PS_GUARD; text "#pragma warning(pop)"; text "#endif" ] ∧
    lines body = [] ∧
    length (classes body) = S (length (Namespaces (GetGlobalVars Data))).
Proof.
  intros name.
  exists (CodeFileGenerator (name +:+ ".h") true
            (CodeGen.HeaderContent GetGlobalVarsClassname GetCPPTypeString
               GetCPPValueString Data name)),
         ((Namespaces (GetGlobalVars Data) ≫= λ ns, NamespaceClass ns [])
          ++ [CLine None None] ++ GlobalVarsClass Data []).
  split; [reflexivity|].
  cbn [Calls CodeFileGenerator]. unfold CodeGen.HeaderContent. run_gen.
  split; [|split].
  - unfold header.Line, header.Line0. rewrite !app_nil_l, <- !app_assoc. reflexivity.
  - unfold lines. rewrite !omap_app.
    fold (lines (Namespaces (GetGlobalVars Data) ≫= λ ns, NamespaceClass ns [])).
    rewrite lines_namespaces. reflexivity.
  - unfold classes at 1. rewrite !omap_app, !length_app.
    fold (classes (Namespaces (GetGlobalVars Data) ≫= λ ns, NamespaceClass ns [])).
    rewrite length_classes_namespaces. unfold CodeGen.GlobalVarsClass, header.Class.
    cbn [app omap list_omap length]. lia.
Qed.

(** The member declared for a variable of a namespace, and for a namespace
    in the global class. *)
Local Abbreviation Category ns :=
  ("VisibleAnywhere, BlueprintReadOnly, Category=" +:+ dq +:+ Namespace ns +:+ dq).

Lemma variables_NamespaceClass (ns : FArticyGVNamespace) :
  ∃ c, classes (NamespaceClass ns []) = [c] ∧
       ClassComment c = NsDescription ns ∧
       variables (Content c) =
         (λ var, {| VarType := GetCPPTypeString var +:+ "*"; VarName := Variable_ var;
                    VarValue := "nullptr"; VarComment := Description var;
                    bUProperty := true; UPropertySpecifiers := Category ns |})
           <$> Variables ns.
Proof.
  unfold CodeGen.NamespaceClass. run_gen.
  eexists. split; [reflexivity|]. cbn [ClassComment Content]. split; [done|].
  run_gen. unfold variables. rewrite !omap_app, !omap_bind.
  cbn -[Printf String.append for_each].
  by rewrite bind_singleton, app_nil_r.
Qed.

Lemma variables_GlobalVarsClass (Data : UArticyImportData) :
  ∃ c, classes (GlobalVarsClass Data []) = [c] ∧
       variables (Content c) =
         (λ ns, {| VarType := CppTypename ns +:+ "*"; VarName := Namespace ns;
                   VarValue := "nullptr"; VarComment := NsDescription ns;
                   bUProperty := true; UPropertySpecifiers := Category ns |})
           <$> Namespaces (GetGlobalVars Data).
Proof.
  unfold CodeGen.GlobalVarsClass.
  eexists. split; [reflexivity|]. cbn [Content].
  run_gen. unfold variables. rewrite !omap_app, !omap_bind.
  cbn -[Printf String.append for_each].
  by rewrite bind_singleton, app_nil_r.
Qed.

(** X2: every member the header declares is initialised to [nullptr] and is
    filed under the category of its namespace: the members of a namespace
    class carry their variable's description, the members of the global
    class their namespace's description, and a namespace class carries the
    namespace's description as its comment. *)
Theorem GenerateCode_member_defaults (Data : UArticyImportData) (OutFile : FString) :
  ∃ file nsClasses gvClass,
    GenerateCode (Some Data) OutFile = (GetGlobalVarsClassname Data true, [file]) ∧
    classes (Calls file) = nsClasses ++ [gvClass] ∧
    Forall2 (λ ns c,
               ClassComment c = NsDescription ns ∧
               Forall2 (λ var v,
                          VarValue v = "nullptr" ∧ VarComment v = Description var ∧
                          UPropertySpecifiers v = Category ns)
                       (Variables ns) (variables (Content c)))
            (Namespaces (GetGlobalVars Data)) nsClasses ∧
    Forall2 (λ ns v,
               VarValue v = "nullptr" ∧ VarComment v = NsDescription ns ∧
               UPropertySpecifiers v = Category ns)
            (Namespaces (GetGlobalVars Data)) (variables (Content gvClass)).
Proof.
  assert (∃ cs, classes (Namespaces (GetGlobalVars Data) ≫= λ ns, NamespaceClass ns []) = cs ∧
                Forall2 (λ ns c,
                  ClassComment c = NsDescription ns ∧
                  Forall2 (λ var v,
                             VarValue v = "nullptr" ∧ VarComment v = Description var ∧
                             UPropertySpecifiers v = Category ns)
                          (Variables ns) (variables (Content c)))
                  (Namespaces (GetGlobalVars Data)) cs) as (cs & Hcs & Hnss).
  { induction (Namespaces (GetGlobalVars Data)) as [|ns nss (cs & Hcs & IH)].
    - exists []. split; [done | constructor].
    - destruct (variables_NamespaceClass ns) as (c & Hc & Hcomment & Hvars).
      exists (c :: cs). split.
      + rewrite bind_cons. unfold classes in *. by rewrite omap_app, Hc, Hcs.
      + constructor; [|done]. split; [done|]. rewrite Hvars.
        by apply Forall2_fmap_diag. }
  destruct (variables_GlobalVarsClass Data) as (gv & Hgv & Hvars).
  eexists _, cs, gv. split; [reflexivity|].
  cbn [Calls CodeFileGenerator]. split.
  - unfold CodeGen.HeaderContent. run_gen.
    unfold classes in *. rewrite !omap_app, Hcs, Hgv. reflexivity.
  - split; [done|]. rewrite Hvars. by apply Forall2_fmap_diag.
Qed.

(** X3: import data without namespaces still yields the global class, and
    only it: no members, a constructor whose only line is [Init();], and an
    [Init] that does nothing. *)
Theorem GenerateCode_no_namespaces (Data : UArticyImportData) (OutFile : FString) :
  Namespaces (GetGlobalVars Data) = [] →
  ∃ file gvClass ctor init getDefault,
    GenerateCode (Some Data) OutFile = (GetGlobalVarsClassname Data true, [file]) ∧
    classes (Calls file) = [gvClass] ∧
    Classname gvClass = GetGlobalVarsClassname Data false +:+ " : public UArticyGlobalVariables" ∧
    variables (Content gvClass) = [] ∧
    methods (Content gvClass) = [ctor; init; getDefault] ∧
    lines (Body ctor) = ["Init();"] ∧
    lines (Body init) = [].
Proof.
  intros Hnone.
  destruct (classes_GlobalVarsClass GetGlobalVarsClassname Data)
    as (gv & Hgv & Hname & _ & Hvars & ctor & init & getDefault & Hmethods & _ & _ & Hctor
        & _ & _ & Hinit & _).
  rewrite Hnone in Hvars, Hctor, Hinit.
  eexists _, gv, ctor, init, getDefault. split; [reflexivity|].
  cbn [Calls CodeFileGenerator]. split.
  - unfold CodeGen.HeaderContent. rewrite Hnone. run_gen.
    unfold classes in *. rewrite !omap_app, Hgv. reflexivity.
  - split; [done|]. split; [by inversion Hvars|]. by repeat split.
Qed.

(** X4: [GenerateAsset] asks for the asset of the class that [GenerateCode]
    named its header after. *)
Theorem GenerateAsset_matches_header (ProjectName : FString) (Data : UArticyImportData)
    (OutFile : FString) :
  ∃ file,
    GenerateCode (Some Data) OutFile
      = (AssetGen.ClassName (AssetGen.GenerateAsset GetGlobalVarsClassname ProjectName Data),
         [file]) ∧
    Path file
      = AssetGen.ClassName (AssetGen.GenerateAsset GetGlobalVarsClassname ProjectName Data)
        +:+ ".h".
Proof. eexists. split; reflexivity. Qed.

End GenerateCode_frame.

(** The example project has a namespace; a project without one: *)
Lemma GenerateCode_no_namespaces_witness :
  ∃ file gvClass,
    CodeGen.GenerateCode CodeGen.ExampleClassname CodeGen.ExampleTypeString
      CodeGen.ExampleValueString
      (Some {| Project := Project CodeGen.ExampleData;
               GlobalVariables := {| Namespaces := [] |} |}) "Unset"
    = ("DemoGlobalVariables", [file]) ∧
    CodeGen.classes (CodeGen.Calls file) = [gvClass] ∧
    CodeGen.variables (CodeGen.Content gvClass) = [].
Proof.
  destruct (GenerateCode_no_namespaces CodeGen.ExampleClassname CodeGen.ExampleTypeString
              CodeGen.ExampleValueString
              {| Project := Project CodeGen.ExampleData;
                 GlobalVariables := {| Namespaces := [] |} |} "Unset" eq_refl)
    as (file & gv & ctor & init & getDefault & H1 & H2 & _ & H3 & _).
  exists file, gv. split; [exact H1|]. split; [exact H2 | exact H3].
Defined.

(** ** The package load settings and the database *)

Section UpdatePackageSettings_database.

Import PluginSettings.

Variable UArticyDatabase : Type.
Variable GetImportedPackageNames : UArticyDatabase → list FString.
Variable IsPackageDefaultPackage : UArticyDatabase → FString → bool.
Variable ChangePackageDefault : UArticyDatabase → FString → bool → UArticyDatabase.

Local Abbreviation World := (PluginSettings.World UArticyDatabase).
Local Abbreviation ApplyPreviousSettings :=
  (PluginSettings.ApplyPreviousSettings GetImportedPackageNames ChangePackageDefault).
Local Abbreviation UpdatePackageSettings :=
  (PluginSettings.UpdatePackageSettings
     GetImportedPackageNames IsPackageDefaultPackage ChangePackageDefault).

(** The settings map after the two loops of [UpdatePackageSettings]. *)
Local Abbreviation Looped w db :=
  (AddNew IsPackageDefaultPackage db (GetImportedPackageNames db)
     (GenerateKeyArray (PackageLoadSettings w))
     (RemoveOutdated (GetImportedPackageNames db)
        (GenerateKeyArray (PackageLoadSettings w)) (PackageLoadSettings w))).

(** Writing the flags [s] holds for the names [l] into a database. *)
Local Abbreviation Push s db l :=
  (foldl (λ acc_db acc_name,
            ChangePackageDefault acc_db acc_name (default false (MapFind s acc_name))) db l).

(** On the class default object, with every name a key, the loop of
    [ApplyPreviousSettings] logs nothing and only writes to the database. *)
Lemma ApplyPreviousSettings_fold (l : list FString) (db : UArticyDatabase) (w : World) :
  bThisIsDefault w = true →
  Forall (λ Name, is_Some (MapFind (PackageLoadSettings w) Name)) l →
  foldl (ApplyPreviousSettings_step ChangePackageDefault) (db, w) l
  = (Push (PackageLoadSettings w) db l, w).
Proof.
  intros Hdefault Hkeys. revert db.
  induction Hkeys as [|Name l [b Hb] _ IH]; intros db; [done|].
  cbn [foldl]. unfold ApplyPreviousSettings_step at 2, GetDefaultSettings.
  rewrite Hdefault, Hb. cbn [default]. apply IH.
Qed.

Lemma Looped_imported (w : World) (db : UArticyDatabase) :
  GetMutableOriginal w = Some db →
  Forall (λ Name, is_Some (MapFind (Looped w db) Name)) (GetImportedPackageNames db).
Proof.
  intros Hdb. apply Forall_forall. intros Name Hin.
  rewrite <- (UpdatePackageSettings_settings _ GetImportedPackageNames
                IsPackageDefaultPackage ChangePackageDefault _ _ Hdb).
  apply MapFind_Some.
  rewrite (UpdatePackageSettings_contains _ _ _ _ _ _ _ Hdb).
  by apply Contains_elem_of.
Qed.

(** [UpdatePackageSettings] on the class default object, unfolded. *)
Lemma UpdatePackageSettings_default_object (w : World) (db : UArticyDatabase) :
  bThisIsDefault w = true →
  GetMutableOriginal w = Some db →
  UpdatePackageSettings w
  = SetDatabase (Push (Looped w db) db (GetImportedPackageNames db))
      (SetPackageLoadSettings (Looped w db) w).
Proof.
  intros Hdefault Hdb. unfold PluginSettings.UpdatePackageSettings. rewrite Hdb.
  unfold PluginSettings.ApplyPreviousSettings.
  cbn [GetMutableOriginal SetPackageLoadSettings]. rewrite Hdb.
  rewrite ApplyPreviousSettings_fold.
  - cbn [PackageLoadSettings SetPackageLoadSettings]. reflexivity.
  - exact Hdefault.
  - cbn [PackageLoadSettings]. by apply Looped_imported.
Qed.

(** X5: after [UpdatePackageSettings] with a valid database,
    [DoesPackageSettingExist] answers true exactly for the names that match
    an imported package name, letter case ignored as [FString::operator==]
    ignores it. *)
Theorem DoesPackageSettingExist_after_update (w : World) (db : UArticyDatabase)
    (packageName : FString) :
  GetMutableOriginal w = Some db →
  DoesPackageSettingExist (UpdatePackageSettings w) packageName
  = Contains (GetImportedPackageNames db) packageName.
Proof.
  intros Hdb. unfold DoesPackageSettingExist.
  exact (UpdatePackageSettings_contains _ _ _ _ _ _ _ Hdb).
Qed.

(** X6: on the class default object, [UpdatePackageSettings] with a valid
    database logs no warning: every imported name has a setting by the time
    [ApplyPreviousSettings] looks it up. *)
Theorem UpdatePackageSettings_logs_nothing (w : World) (db : UArticyDatabase) :
  bThisIsDefault w = true →
  GetMutableOriginal w = Some db →
  LogTemp (UpdatePackageSettings w) = LogTemp w.
Proof.
  intros Hdefault Hdb. by rewrite (UpdatePackageSettings_default_object _ _ Hdefault Hdb).
Qed.

(** The first loop removes nothing when every current name matches an
    imported one, and the second adds nothing when every imported name
    matches a current one. *)
Lemma RemoveOutdated_nothing (Imported Current : list FString) (m : list (FString * bool)) :
  Forall (λ Name, Contains Imported Name = true) Current →
  RemoveOutdated Imported Current m = m.
Proof.
  unfold RemoveOutdated. induction 1 as [|x Current Hx _ IH]; [done|].
  cbn [foldl]. by rewrite Hx.
Qed.

Lemma AddNew_nothing (db : UArticyDatabase) (Imported Current : list FString)
    (m : list (FString * bool)) :
  Forall (λ Name, Contains Current Name = true) Imported →
  AddNew IsPackageDefaultPackage db Imported Current m = m.
Proof.
  unfold AddNew. induction 1 as [|x Imported Hx _ IH]; [done|].
  cbn [foldl]. by rewrite Hx.
Qed.

Section ChangePackageDefault_sets_the_flag.

(** What [ChangePackageDefault] is for: it changes the flag of the named
    imported package and nothing else.  The name reaches it as an [FName],
    which ignores letter case as [FString] comparison does. *)
Hypothesis ChangePackageDefault_names : ∀ db Name b,
  GetImportedPackageNames (ChangePackageDefault db Name b) = GetImportedPackageNames db.
Hypothesis ChangePackageDefault_flag : ∀ db Name b Other,
  Name ∈ GetImportedPackageNames db →
  IsPackageDefaultPackage (ChangePackageDefault db Name b) Other
  = if decide (FString_eq Other Name) then b else IsPackageDefaultPackage db Other.

Lemma Push_names (s : list (FString * bool)) (l : list FString) (db : UArticyDatabase) :
  GetImportedPackageNames (Push s db l) = GetImportedPackageNames db.
Proof.
  revert db. induction l as [|Name l IH]; intros db; [done|].
  cbn [foldl]. by rewrite IH, ChangePackageDefault_names.
Qed.

Lemma Push_flag (s : list (FString * bool)) (l : list FString) (db : UArticyDatabase)
    (Other : FString) :
  l ⊆ GetImportedPackageNames db →
  IsPackageDefaultPackage (Push s db l) Other
  = if Contains l Other then default false (MapFind s Other)
    else IsPackageDefaultPackage db Other.
Proof.
  revert db. induction l as [|Name l IH]; intros db Hsub.
  - cbn [foldl]. by rewrite Contains_nil.
  - cbn [foldl]. rewrite IH.
    2: { rewrite ChangePackageDefault_names. intros x Hx. apply Hsub. by right. }
    rewrite ChangePackageDefault_flag by (apply Hsub; by left).
    rewrite Contains_cons. destruct (Contains l Other); [by rewrite orb_true_r|].
    rewrite orb_false_r. destruct (decide (FString_eq Other Name)) as [Hn|Hn].
    + rewrite bool_decide_eq_true_2 by (by symmetry).
      by rewrite (MapFind_respects s Other Name Hn).
    + rewrite bool_decide_eq_false_2; [done|]. intros Hm. apply Hn. by symmetry.
Qed.

(** X7: run on the class default object, [UpdatePackageSettings] leaves the
    database and the settings in agreement: for every imported package, the
    database's default flag is the value [PackageLoadSettings] holds under
    that name (found as the map finds it, letter case ignored). *)
Theorem UpdatePackageSettings_database_agrees (w : World) (db : UArticyDatabase) :
  bThisIsDefault w = true →
  GetMutableOriginal w = Some db →
  ∃ db',
    GetMutableOriginal (UpdatePackageSettings w) = Some db' ∧
    GetImportedPackageNames db' = GetImportedPackageNames db ∧
    ∀ Name, Name ∈ GetImportedPackageNames db →
      MapFind (PackageLoadSettings (UpdatePackageSettings w)) Name
      = Some (IsPackageDefaultPackage db' Name).
Proof.
  intros Hdefault Hdb.
  rewrite (UpdatePackageSettings_default_object _ _ Hdefault Hdb).
  eexists. split; [reflexivity|]. split; [apply Push_names|].
  intros Name Hin. cbn [PackageLoadSettings SetDatabase SetPackageLoadSettings].
  rewrite Push_flag by done. rewrite (Contains_elem_of _ _ Hin).
  pose proof (Looped_imported _ _ Hdb) as Hkeys.
  rewrite Forall_forall in Hkeys. by destruct (Hkeys Name Hin) as [b ->].
Qed.

(** X8: a second [UpdatePackageSettings] changes no setting: the values a
    user has chosen survive every later update. *)
Theorem UpdatePackageSettings_idempotent (w : World) (db : UArticyDatabase) :
  GetMutableOriginal w = Some db →
  PackageLoadSettings (UpdatePackageSettings (UpdatePackageSettings w))
  = PackageLoadSettings (UpdatePackageSettings w).
Proof.
  intros Hdb.
  assert (∃ db', GetMutableOriginal (UpdatePackageSettings w) = Some db' ∧
                 GetImportedPackageNames db' = GetImportedPackageNames db)
    as (db' & Hdb' & Hnames).
  { unfold PluginSettings.UpdatePackageSettings. rewrite Hdb.
    unfold PluginSettings.ApplyPreviousSettings.
    cbn [GetMutableOriginal SetPackageLoadSettings]. rewrite Hdb.
    assert (∀ l acc, GetImportedPackageNames
                       (foldl (ApplyPreviousSettings_step ChangePackageDefault) acc l).1
                     = GetImportedPackageNames acc.1) as Hfold.
    { induction l as [|Name l IH]; intros [d v]; [done|].
      cbn [foldl]. rewrite IH. unfold ApplyPreviousSettings_step.
      destruct (MapFind (GetDefaultSettings v) Name);
        [apply ChangePackageDefault_names | done]. }
    specialize (Hfold (GetImportedPackageNames db)
                  (db, SetPackageLoadSettings (Looped w db) w)).
    destruct (foldl _ _ _) as [d v]. exists d. split; [done | exact Hfold]. }
  rewrite (UpdatePackageSettings_settings _ GetImportedPackageNames
             IsPackageDefaultPackage ChangePackageDefault _ _ Hdb'), Hnames.
  set (once := PackageLoadSettings (UpdatePackageSettings w)).
  assert (∀ Name, MapContains once Name = Contains (GetImportedPackageNames db) Name)
    as Hkeys by (intros Name; exact (UpdatePackageSettings_contains _ _ _ _ _ _ _ Hdb)).
  rewrite RemoveOutdated_nothing.
  - apply AddNew_nothing. apply Forall_forall. intros Name Hin.
    rewrite Contains_keys, Hkeys. by apply Contains_elem_of.
  - apply Forall_forall. intros Name Hin.
    rewrite <- Hkeys, <- Contains_keys. by apply Contains_elem_of.
Qed.

End ChangePackageDefault_sets_the_flag.

End UpdatePackageSettings_database.

(** The example database changes flags as assumed above. *)
Lemma PackageSetDefault_names (db : PluginSettings.PackageList) (Name : FString) (b : bool) :
  PluginSettings.PackageNames (PluginSettings.PackageSetDefault db Name b)
  = PluginSettings.PackageNames db.
Proof.
  unfold PluginSettings.PackageNames, PluginSettings.PackageSetDefault.
  rewrite <- list_fmap_compose. apply list_fmap_ext. intros i [n v] _. cbn.
  by case_decide.
Qed.

Lemma PackageSetDefault_flag (db : PluginSettings.PackageList) (Name : FString) (b : bool)
    (Other : FString) :
  Name ∈ PluginSettings.PackageNames db →
  PluginSettings.PackageIsDefault (PluginSettings.PackageSetDefault db Name b) Other
  = if decide (FString_eq Other Name) then b else PluginSettings.PackageIsDefault db Other.
Proof.
  unfold PluginSettings.PackageNames, PluginSettings.PackageIsDefault,
    PluginSettings.PackageSetDefault.
  intros Hin. apply list_elem_of_fmap in Hin as ([n v] & -> & Hin). cbn [fst].
  destruct (decide (FString_eq Other n)) as [Hsame|Hother].
  - destruct b.
    + apply bool_decide_eq_true_2, Exists_exists.
      exists (n, true). split.
      * apply list_elem_of_fmap. exists (n, v). split; [|done]. cbn.
        by rewrite decide_True.
      * split; [by symmetry | done].
    + apply bool_decide_eq_false_2.
      intros (q & Hq & Hname & Hflag)%Exists_exists.
      apply list_elem_of_fmap in Hq as ([n' v'] & -> & _). cbn in Hname, Hflag.
      destruct (decide (FString_eq n' n)) as [Hn'|Hn']; cbn in Hname, Hflag; [done|].
      apply Hn'. transitivity Other; [done | done].
  - apply bool_decide_ext. rewrite !Exists_exists. split.
    + intros (q & Hq & Hname & Hflag).
      apply list_elem_of_fmap in Hq as ([n' v'] & -> & Hin').
      destruct (decide (FString_eq (n', v').1 n)) as [Hn'|Hn']; cbn in Hname, Hflag, Hn'.
      * destruct Hother. transitivity n'; [by symmetry | done].
      * exists (n', v'). by repeat split.
    + intros ([n' v'] & Hin' & Hname & Hflag). cbn in Hname, Hflag.
      exists (n', v'). split; [|done].
      apply list_elem_of_fmap. exists (n', v'). split; [|done]. cbn.
      rewrite decide_False; [done|]. intros Hn'. apply Hother.
      transitivity n'; [by symmetry | done].
Qed.

(** Witnesses on the example worlds: in each the database is valid and the
    settings object is the class default object. *)
Lemma DoesPackageSettingExist_after_update_witness :
  PluginSettings.DoesPackageSettingExist
    (PluginSettings.UpdatePackageSettings
       PluginSettings.PackageNames PluginSettings.PackageIsDefault
       PluginSettings.PackageSetDefault PluginSettings.RespelledWorld) "CHAPTER1"
  = PluginSettings.Contains
      (PluginSettings.PackageNames PluginSettings.RespelledDatabase) "CHAPTER1".
Proof.
  exact (DoesPackageSettingExist_after_update
           PluginSettings.PackageList PluginSettings.PackageNames
           PluginSettings.PackageIsDefault PluginSettings.PackageSetDefault
           PluginSettings.RespelledWorld PluginSettings.RespelledDatabase "CHAPTER1" eq_refl).
Defined.

Lemma UpdatePackageSettings_logs_nothing_witness :
  PluginSettings.LogTemp
    (PluginSettings.UpdatePackageSettings
       PluginSettings.PackageNames PluginSettings.PackageIsDefault
       PluginSettings.PackageSetDefault PluginSettings.ExampleWorld)
  = PluginSettings.LogTemp PluginSettings.ExampleWorld.
Proof.
  exact (UpdatePackageSettings_logs_nothing
           PluginSettings.PackageList PluginSettings.PackageNames
           PluginSettings.PackageIsDefault PluginSettings.PackageSetDefault
           PluginSettings.ExampleWorld PluginSettings.ExampleDatabase eq_refl eq_refl).
Defined.

Lemma UpdatePackageSettings_database_agrees_witness :
  ∃ db',
    PluginSettings.GetMutableOriginal
      (PluginSettings.UpdatePackageSettings
         PluginSettings.PackageNames PluginSettings.PackageIsDefault
         PluginSettings.PackageSetDefault PluginSettings.RespelledWorld) = Some db' ∧
    PluginSettings.MapFind
      (PluginSettings.PackageLoadSettings
         (PluginSettings.UpdatePackageSettings
            PluginSettings.PackageNames PluginSettings.PackageIsDefault
            PluginSettings.PackageSetDefault PluginSettings.RespelledWorld)) "Chapter1"
    = Some (PluginSettings.PackageIsDefault db' "Chapter1").
Proof.
  destruct (UpdatePackageSettings_database_agrees
              PluginSettings.PackageList PluginSettings.PackageNames
              PluginSettings.PackageIsDefault PluginSettings.PackageSetDefault
              PackageSetDefault_names PackageSetDefault_flag
              PluginSettings.RespelledWorld PluginSettings.RespelledDatabase eq_refl eq_refl)
    as (db' & Hdb' & _ & Hagree).
  exists db'. split; [exact Hdb'|]. apply Hagree. by left.
Defined.

Lemma UpdatePackageSettings_idempotent_witness :
  PluginSettings.PackageLoadSettings
    (PluginSettings.UpdatePackageSettings
       PluginSettings.PackageNames PluginSettings.PackageIsDefault
       PluginSettings.PackageSetDefault
       (PluginSettings.UpdatePackageSettings
          PluginSettings.PackageNames PluginSettings.PackageIsDefault
          PluginSettings.PackageSetDefault PluginSettings.ExampleWorld))
  = PluginSettings.PackageLoadSettings
      (PluginSettings.UpdatePackageSettings
         PluginSettings.PackageNames PluginSettings.PackageIsDefault
         PluginSettings.PackageSetDefault PluginSettings.ExampleWorld).
Proof.
  exact (UpdatePackageSettings_idempotent
           PluginSettings.PackageList PluginSettings.PackageNames
           PluginSettings.PackageIsDefault PluginSettings.PackageSetDefault
           PackageSetDefault_names
           PluginSettings.ExampleWorld PluginSettings.ExampleDatabase eq_refl).
Defined.

(** On the examples, the user's choice reaches the database, also when the
    settings spell the package differently. *)
Example UpdatePackageSettings_pushes_user_choice :
  PluginSettings.GetMutableOriginal
    (PluginSettings.UpdatePackageSettings
       PluginSettings.PackageNames PluginSettings.PackageIsDefault
       PluginSettings.PackageSetDefault PluginSettings.ExampleWorld)
  = Some [("Chapter1", false); ("Chapter2", false)] ∧
  PluginSettings.GetMutableOriginal
    (PluginSettings.UpdatePackageSettings
       PluginSettings.PackageNames PluginSettings.PackageIsDefault
       PluginSettings.PackageSetDefault PluginSettings.RespelledWorld)
  = Some [("Chapter1", false)].
Proof. vm_compute. by split. Qed.

(** ** The editor module: status, queue, start-up and shutdown *)

Section EditorModule_more.

Import EditorModule EditorLifecycle.

Lemma CheckAssets_inv (assets : list FAssetData) :
  match CheckAssets assets with
  | None => Forall (λ a, is_Some (GetAsset a)) assets
  | Some r => r = FileMissing ∧ Exists (λ a, GetAsset a = None) assets
  end.
Proof.
  induction assets as [|a assets IH]; cbn [CheckAssets]; [constructor|].
  destruct (GetAsset a) as [o|] eqn:Ha.
  - destruct (CheckAssets assets) as [r|].
    + destruct IH as [-> IH]. split; [done|]. by right.
    + constructor; [by rewrite Ha | done].
  - split; [done|]. by left.
Qed.

Lemma not_all_and_some_null (assets : list FAssetData) :
  Forall (λ a, is_Some (GetAsset a)) assets →
  Exists (λ a, GetAsset a = None) assets → False.
Proof.
  intros Hall Hsome. apply Exists_exists in Hsome as (a & Hin & Ha).
  rewrite Forall_forall in Hall. destruct (Hall a Hin) as [o Ho]. congruence.
Qed.

(** X9: [CheckImportStatusValidity] answers [Valid] exactly when the import
    data asset exists, the generated source folder holds at least 5 files,
    and the generated asset folder holds at least 3 assets, all of which
    load. *)
Theorem CheckImportStatusValidity_Valid_iff (env : Env) :
  CheckImportStatusValidity env = Valid ↔
  is_Some (EnsureImportDataAsset env) ∧
  (5 ≤ length (FindFiles env (GetSourceFolder env)))%nat ∧
  Forall (λ a, is_Some (GetAsset a)) (GetAssetsByPath env (GetArticyGeneratedFolder env)) ∧
  (3 ≤ length (GetAssetsByPath env (GetArticyGeneratedFolder env)))%nat.
Proof.
  unfold CheckImportStatusValidity, Num.
  pose proof (CheckAssets_inv (GetAssetsByPath env (GetArticyGeneratedFolder env))) as Hassets.
  destruct (EnsureImportDataAsset env) as [D|].
  2: { split; [done | by intros [[? ?] _]]. }
  destruct (Z.ltb_spec (Z.of_nat (length (FindFiles env (GetSourceFolder env)))) 5).
  { split; [done | intros (_ & ? & _); lia]. }
  destruct (CheckAssets _) as [r|].
  { destruct Hassets as [-> Hnull]. split; [done|].
    intros (_ & _ & Hall & _). destruct (not_all_and_some_null _ Hall Hnull). }
  destruct (Z.ltb_spec (Z.of_nat (length (GetAssetsByPath env (GetArticyGeneratedFolder env)))) 3).
  { split; [done | intros (_ & _ & _ & ?); lia]. }
  split; [|done]. intros _. split; [eauto|]. split; [lia|]. split; [done | lia].
Qed.

(** X10: [CheckImportStatusValidity] answers [FileMissing] exactly when the
    import data asset exists and either fewer than 5 files are in the
    generated source folder or some asset of the generated folder fails to
    load. *)
Theorem CheckImportStatusValidity_FileMissing_iff (env : Env) :
  CheckImportStatusValidity env = FileMissing ↔
  is_Some (EnsureImportDataAsset env) ∧
  ((length (FindFiles env (GetSourceFolder env)) < 5)%nat ∨
   Exists (λ a, GetAsset a = None) (GetAssetsByPath env (GetArticyGeneratedFolder env))).
Proof.
  unfold CheckImportStatusValidity, Num.
  pose proof (CheckAssets_inv (GetAssetsByPath env (GetArticyGeneratedFolder env))) as Hassets.
  destruct (EnsureImportDataAsset env) as [D|].
  2: { split; [done | by intros [[? ?] _]]. }
  destruct (Z.ltb_spec (Z.of_nat (length (FindFiles env (GetSourceFolder env)))) 5).
  { split; [|done]. intros _. split; [eauto|]. left. lia. }
  destruct (CheckAssets _) as [r|].
  { destruct Hassets as [-> Hnull]. split; [|done]. intros _. split; [eauto | by right]. }
  assert (¬ (is_Some (Some D) ∧
             ((length (FindFiles env (GetSourceFolder env)) < 5)%nat ∨
              Exists (λ a, GetAsset a = None)
                (GetAssetsByPath env (GetArticyGeneratedFolder env))))) as Hno.
  { intros (_ & [?|Hnull]); [lia|]. destruct (not_all_and_some_null _ Hassets Hnull). }
  destruct (_ <? 3)%Z; (split; [done | by intros ?]).
Qed.

(** X11: the generated-code callback stays silent about everything but
    missing files: with no import data asset, or with 5 files and every
    asset loading (however few assets there are), it leaves the editor as it
    is, whatever the user would have answered. *)
Theorem OnGeneratedCodeChanged_silent (env : Env) (ForceCompleteReimport : Editor → Editor)
    (FileChanges : list FString) (w : Editor) :
  EnsureImportDataAsset env = None ∨
  ((5 ≤ length (FindFiles env (GetSourceFolder env)))%nat ∧
   Forall (λ a, is_Some (GetAsset a)) (GetAssetsByPath env (GetArticyGeneratedFolder env))) →
  OnGeneratedCodeChanged env ForceCompleteReimport FileChanges w = w.
Proof.
  intros Hquiet. unfold OnGeneratedCodeChanged. rewrite decide_False; [done|].
  unfold CheckImportStatusValidity, Num.
  destruct Hquiet as [->|[Hfiles Hall]]; [done|].
  destruct (EnsureImportDataAsset env) as [D|]; [|done].
  rewrite (proj2 (Z.ltb_ge _ _)) by lia. rewrite (CheckAssets_None _ Hall).
  by destruct (_ <? 3)%Z.
Qed.

(** *** The import queue, continued *)

(** X12: [UnqueueImport] is idempotent, and on an editor whose handle is
    invalid it unbinds nothing. *)
Theorem UnqueueImport_idempotent (w : Editor) :
  UnqueueImport (UnqueueImport w) = UnqueueImport w ∧
  (QueuedImportHandle w = InvalidHandle → EndPIE (UnqueueImport w) = EndPIE w).
Proof.
  split; [reflexivity|]. intros Hinvalid. by rewrite EndPIE_UnqueueImport, Hinvalid.
Qed.

(** X13: queueing twice before the play session ends binds
    [TriggerQueuedImport] twice but keeps only the second handle: unqueueing
    clears the flag and removes the second binding, and the first stays
    bound to [EndPIE]. *)
Theorem QueueImport_twice_leaves_a_delegate (w : Editor) :
  Forall (λ d, (d.1 ≤ GNextID w)%N) (EndPIE w) →
  let idle := UnqueueImport (QueueImport (QueueImport w)) in
  IsImportQueued idle = false ∧
  QueuedImportHandle idle = InvalidHandle ∧
  EndPIE idle = EndPIE w ++ [(N.succ (GNextID w), mTriggerQueuedImport)].
Proof.
  intros Hfresh idle. subst idle. split; [done|]. split; [done|].
  rewrite EndPIE_UnqueueImport.
  destruct (QueueImport_state (QueueImport w)) as (_ & -> & ->).
  destruct (QueueImport_state w) as (_ & _ & ->).
  change (GNextID (QueueImport w)) with (N.succ (GNextID w)).
  rewrite (proj2 (N.eqb_neq _ _)) by (unfold InvalidHandle; lia).
  rewrite !filter_app, filter_fresh_handle.
  - rewrite filter_cons_True by (cbn; lia).
    rewrite filter_cons_False by (cbn; by intros ?).
    rewrite !filter_nil. by rewrite app_nil_r.
  - eapply Forall_impl; [exact Hfresh|]. cbn. intros d Hd. lia.
Qed.

End EditorModule_more.

Lemma QueueImport_twice_leaves_a_delegate_witness :
  EditorModule.EndPIE
    (EditorModule.UnqueueImport
       (EditorModule.QueueImport (EditorModule.QueueImport EditorModule.FreshEditor)))
  = [(1%N, EditorModule.mTriggerQueuedImport)].
Proof.
  exact (proj2 (proj2 (QueueImport_twice_leaves_a_delegate EditorModule.FreshEditor
                         (Forall_nil_2 _)))).
Defined.

Lemma OnGeneratedCodeChanged_silent_witness :
  EditorModule.OnGeneratedCodeChanged (EditorModule.CompleteImport EditorModule.Yes)
    (EditorModule.call EditorModule.BringToFront) [] EditorModule.FreshEditor
  = EditorModule.FreshEditor.
Proof.
  apply OnGeneratedCodeChanged_silent. right. split; [cbn; lia|].
  repeat constructor; by eexists.
Defined.

(** ** Start-up, commands, packages and shutdown *)

Section EditorLifecycle_properties.

Import EditorModule EditorLifecycle.

(** Splits on the three switches [StartupModule] reads and computes. *)
Ltac startup_cases env :=
  unfold StartupModule, RegisterToolTabs, RegisterArticyToolbar, RegisterPluginCommands,
    RegisterPluginSettings, RegisterGraphPinFactory, RegisterDetailCustomizations,
    RegisterDefaultArticyIdPropertyWidgetExtensions, RegisterConsoleCommands,
    RegisterAssetTypeActions;
  destruct (PLATFORM_WINDOWS env), (SettingsModuleLoaded env),
    (5 <=? ENGINE_MAJOR_VERSION env)%Z.

(** X14: the articy button next to [ArticyId] properties exists on Windows
    only: [StartupModule] registers the widget customization factory exactly
    when the plugin is built for Windows. *)
Theorem StartupModule_widget_factory (env : Env) (w : Editor) :
  ∃ trace,
    EngineCalls (StartupModule env w) = EngineCalls w ++ trace ∧
    WidgetFactories trace =
      if PLATFORM_WINDOWS env then ["FArticyButtonCustomizationFactory"] else [].
Proof.
  destruct (StartupModule_calls env w) as (trace & Hcalls & ->).
  eexists. split; [exact Hcalls|]. startup_cases env; reflexivity.
Qed.

(** X15: start-up order: the customization manager is made first and the
    style is initialised last; [PluginCommands] is created before the first
    call that hands it to the engine. *)
Theorem StartupModule_order (env : Env) (w : Editor) :
  ∃ trace i j c,
    EngineCalls (StartupModule env w) = EngineCalls w ++ trace ∧
    head trace = Some MakeCustomizationManager ∧
    last trace = Some StyleInitialize ∧
    list_find (λ c, CreatesPluginCommands c = true) trace = Some (i, NewCommandList) ∧
    list_find (λ c, UsesPluginCommands c = true) trace = Some (j, c) ∧
    i < j.
Proof.
  destruct (StartupModule_calls env w) as (trace & Hcalls & ->).
  assert (∃ i j c,
    head (EngineCalls (StartupModule env FreshEditor)) = Some MakeCustomizationManager ∧
    last (EngineCalls (StartupModule env FreshEditor)) = Some StyleInitialize ∧
    list_find (λ c, CreatesPluginCommands c = true)
      (EngineCalls (StartupModule env FreshEditor)) = Some (i, NewCommandList) ∧
    list_find (λ c, UsesPluginCommands c = true)
      (EngineCalls (StartupModule env FreshEditor)) = Some (j, c) ∧
    i < j) as (i & j & c & Horder).
  { startup_cases env; eexists _, _, _; vm_compute; repeat split; lia. }
  by exists (EngineCalls (StartupModule env FreshEditor)), i, j, c.
Qed.

(** X16: every command mapped at start-up runs a member that opens a tab,
    and start-up has registered a spawner for that tab. *)
Theorem StartupModule_commands_open_registered_tabs (env : Env) (w : Editor) :
  ∃ trace,
    EngineCalls (StartupModule env w) = EngineCalls w ++ trace ∧
    Forall (λ a, ∃ invocation,
              ExecuteAction env a.2 = Some invocation ∧
              InvokedTabId invocation ∈ (λ s, s.1.1.1) <$> TabSpawners trace)
           (MappedActions trace).
Proof.
  destruct (StartupModule_calls env w) as (trace & Hcalls & ->).
  eexists. split; [exact Hcalls|].
  assert (MappedActions (EngineCalls (StartupModule env FreshEditor))
          = [("OpenArticyImporter", mOpenArticyWindow);
             ("OpenArticyGvDebugger", mOpenArticyGVDebugger)]) as ->
    by (startup_cases env; reflexivity).
  assert ((λ s, s.1.1.1) <$> TabSpawners (EngineCalls (StartupModule env FreshEditor))
          = [ArticyWindowTabID; ArticyGVDebuggerTabID]) as ->
    by (startup_cases env; reflexivity).
  repeat constructor; cbn [snd ExecuteAction]; eexists; (split; [reflexivity|]).
  - unfold OpenArticyWindow. destruct (_ && _); cbn [InvokedTabId]; by left.
  - unfold OpenArticyGVDebugger.
    destruct (_ && _); cbn [InvokedTabId]; right; by left.
Qed.

(** *** [GetPackagesSlow] *)

Lemma GetPackagesSlow_fmap (env : Env) (UObject UArticyPackage : Type)
    (Cast_UArticyPackage : UObject → option UArticyPackage)
    (GetAssetsByClass : UClass → list (option UObject)) :
  GetPackagesSlow env UObject UArticyPackage Cast_UArticyPackage GetAssetsByClass
  = (λ Data, Data ≫= Cast_UArticyPackage)
      <$> (if ((5 <=? ENGINE_MAJOR_VERSION env) && (0 <? ENGINE_MINOR_VERSION env))%Z
           then GetAssetsByClass UArticyGlobalVariables_StaticClass
           else GetAssetsByClass UArticyPackage_StaticClass).
Proof. unfold GetPackagesSlow. by rewrite foldl_snoc_fmap. Qed.



(** *** Shutdown *)


End EditorLifecycle_properties.



(** ** Opening the tooltip *)

Section ToolTipWidget_properties.

Import ToolTip ToolTipWidget.

Variable FindAsset : FArticyId → option UArticyObject.

Local Abbreviation CreateToolTipContent := (ToolTip.CreateToolTipContent FindAsset).
Local Abbreviation OnOpening := (ToolTipWidget.OnOpening FindAsset).

(** X20: [OnOpening] dereferences a null pointer exactly when the object to
    display is valid, has a speaker, and the speaker id resolves to no
    asset or to one without a display name.  A stale object is caught by
    the [IsValid] check and never reaches [CreateToolTipContent]. *)
Theorem OnOpening_null_dereference_iff (t : SArticyObjectToolTip) :
  OnOpening t = NullDereference ↔
  ∃ Object SpeakerId,
    ObjectToDisplay t = Some Object ∧
    ObjectWithSpeaker Object = Some SpeakerId ∧
    CastToDisplayName (FindAsset SpeakerId) = None.
Proof.
  unfold ToolTipWidget.OnOpening. split.
  - destruct (ObjectToDisplay t) as [Object|] eqn:HObject; [|done].
    destruct (ObjectWithSpeaker Object) as [SpeakerId|] eqn:HSpeaker.
    + destruct (CastToDisplayName (FindAsset SpeakerId)) as [n|] eqn:HName.
      * destruct (CreateToolTipContent_returns FindAsset Object) as [content ->]; [|done].
        intros id Hid. rewrite HSpeaker in Hid. injection Hid as <-. by rewrite HName.
      * intros _. by exists Object, SpeakerId.
    + destruct (CreateToolTipContent_returns FindAsset Object) as [content ->]; [|done].
      intros id Hid. congruence.
  - intros (Object & SpeakerId & -> & HSpeaker & HName).
    by rewrite (CreateToolTipContent_null_speaker FindAsset Object SpeakerId HSpeaker HName).
Qed.

(** X21: whenever a tooltip is built, its info box has one to four slots;
    the highlighted slots (speaker, text; at most two) come first, and the
    plain ones follow, the class last. *)
Theorem CreateToolTipContent_info_box_shape (Object : UArticyObject)
    (content : ToolTipContent) :
  CreateToolTipContent (Some Object) = Returns content →
  ∃ highlighted plain,
    InfoBox content = highlighted ++ plain ∧
    Forall (λ s, bImportant s = true) highlighted ∧
    Forall (λ s, bImportant s = false) plain ∧
    (length highlighted ≤ 2)%nat ∧
    (1 ≤ length plain ≤ 2)%nat ∧
    last plain =
      Some {| KeyText := "Class:"; ValueText := "(" +:+ GetClassName Object +:+ ")";
              bImportant := false |}.
Proof.
  unfold ToolTip.CreateToolTipContent. cbn [deref mbind Result_bind].
  intros Hcontent.
  destruct (ObjectWithSpeaker Object) as [SpeakerId|].
  - destruct (CastToDisplayName (FindAsset SpeakerId)) as [SpeakerName|]; cbn in Hcontent.
    2: { by destruct (ObjectWithDisplayName Object) as [d|]; [destruct (IsEmpty d)|]. }
    destruct (ObjectWithDisplayName Object) as [d|]; [destruct (IsEmpty d)|];
      destruct (ObjectWithText Object) as [txt|]; try destruct (IsEmpty txt);
      cbn in Hcontent; injection Hcontent as <-; cbn [InfoBox AddToToolTipInfoBox app];
      first
        [ by eexists [_; _], [_; _]; repeat split; repeat constructor
        | by eexists [_; _], [_]; repeat split; repeat constructor
        | by eexists [_], [_; _]; repeat split; repeat constructor
        | by eexists [_], [_]; repeat split; repeat constructor ].
  - destruct (ObjectWithDisplayName Object) as [d|]; [destruct (IsEmpty d)|];
      destruct (ObjectWithText Object) as [txt|]; try destruct (IsEmpty txt);
      cbn in Hcontent; injection Hcontent as <-; cbn [InfoBox AddToToolTipInfoBox app];
      first
        [ by eexists [_], [_; _]; repeat split; repeat constructor
        | by eexists [_], [_]; repeat split; repeat constructor
        | by eexists [], [_; _]; repeat split; repeat constructor
        | by eexists [], [_]; repeat split; repeat constructor ].
Qed.

End ToolTipWidget_properties.

(** The dialogue line with its speaker imported. *)
Lemma CreateToolTipContent_info_box_shape_witness :
  ∃ content highlighted plain,
    ToolTip.CreateToolTipContent ToolTip.AnnaImported (Some ToolTip.Greeting)
      = ToolTip.Returns content ∧
    ToolTip.InfoBox content = highlighted ++ plain ∧
    (length highlighted ≤ 2)%nat.
Proof.
  destruct (CreateToolTipContent_info_box_shape ToolTip.AnnaImported ToolTip.Greeting _ eq_refl)
    as (highlighted & plain & Hbox & _ & _ & Hlen & _).
  eexists _, highlighted, plain. split; [reflexivity|]. split; [exact Hbox | exact Hlen].
Defined.

(** ** The settings panel: refresh and destruction *)

Section SettingsPanel_properties.

Import SettingsCustomization SettingsPanel.

Variable UArticyDatabase : Type.
Variable GetImportedPackageNames : UArticyDatabase → list FString.

Local Abbreviation Customize :=
  (SettingsPanel.Customize UArticyDatabase GetImportedPackageNames).

Lemma filter_other_handles (h : N) (ds : list (N * Callback)) :
  Forall (λ d, (d.1 < h)%N) ds → filter (λ d, d.1 ≠ h) ds = ds.
Proof.
  induction 1 as [|d ds Hd _ IH]; [done|].
  rewrite filter_cons_True by lia. by rewrite IH.
Qed.

Lemma Remove_fresh (h : N) (ds : list (N * Callback)) :
  Forall (λ d, (d.1 < h)%N) ds → Remove h ds = ds.
Proof.
  intros Hfresh. unfold Remove. destruct (h =? 0)%N; [done|].
  by apply filter_other_handles.
Qed.

Lemma Customize_binds (GetMutableOriginal : option UArticyDatabase) (IsLoadingAssets : bool)
    (p : Panel) :
  let p' := Customize GetMutableOriginal IsLoadingAssets p in
  LayoutBuilder (Customization p') = true ∧
  RefreshHandle (Customization p') = N.succ (GNextID (Customization p)) ∧
  OnAssetsGenerated (Customization p')
    = OnAssetsGenerated (Customization p)
      ++ [(N.succ (GNextID (Customization p)), mRefreshSettingsUI)].
Proof.
  unfold SettingsPanel.Customize, CustomizeDetails. cbn [Customization].
  by destruct GetMutableOriginal, IsLoadingAssets.
Qed.

(** X22: opening the settings panel and closing it again leaves
    [OnAssetsGenerated] as it was: the destructor removes exactly the
    binding [CustomizeDetails] added, with or without a database. *)
Theorem Destructor_unbinds_CustomizeDetails (GetMutableOriginal : option UArticyDatabase)
    (IsLoadingAssets : bool) (p : Panel) :
  Forall (λ d, (d.1 ≤ GNextID (Customization p))%N) (OnAssetsGenerated (Customization p)) →
  OnAssetsGenerated
    (Customization (Destructor (Customize GetMutableOriginal IsLoadingAssets p)))
  = OnAssetsGenerated (Customization p).
Proof.
  intros Hfresh.
  destruct (Customize_binds GetMutableOriginal IsLoadingAssets p) as (_ & Hhandle & Hbound).
  unfold Destructor. cbn [Customization OnAssetsGenerated]. rewrite Hhandle, Hbound.
  unfold Remove. rewrite (proj2 (N.eqb_neq _ _)) by lia.
  rewrite filter_app, filter_cons_False, filter_nil, app_nil_r by (cbn; by intros ?).
  apply filter_other_handles.
  eapply Forall_impl; [exact Hfresh|]. cbn. intros d Hd. lia.
Qed.


End SettingsPanel_properties.

(** A panel opened for the first time: nothing bound yet. *)
Lemma Destructor_unbinds_CustomizeDetails_witness :
  SettingsCustomization.OnAssetsGenerated
    (SettingsPanel.Customization
       (SettingsPanel.Destructor
          (SettingsPanel.Customize PluginSettings.PackageList PluginSettings.PackageNames
             (Some PluginSettings.ExampleDatabase) false
             {| SettingsPanel.Customization :=
                  {| SettingsCustomization.LayoutBuilder := false;
                     SettingsCustomization.RefreshHandle := 0;
                     SettingsCustomization.DetailLayout := ∅;
                     SettingsCustomization.OnAssetsGenerated := [];
                     SettingsCustomization.OnFilesLoaded := [];
                     SettingsCustomization.GNextID := 0 |};
                SettingsPanel.OnImportFinished := [];
                SettingsPanel.ForceRefreshDetails := 0 |})))
  = [].
Proof.
  exact (Destructor_unbinds_CustomizeDetails PluginSettings.PackageList
           PluginSettings.PackageNames (Some PluginSettings.ExampleDatabase) false
           {| SettingsPanel.Customization :=
                {| SettingsCustomization.LayoutBuilder := false;
                   SettingsCustomization.RefreshHandle := 0;
                   SettingsCustomization.DetailLayout := ∅;
                   SettingsCustomization.OnAssetsGenerated := [];
                   SettingsCustomization.OnFilesLoaded := [];
                   SettingsCustomization.GNextID := 0 |};
              SettingsPanel.OnImportFinished := [];
              SettingsPanel.ForceRefreshDetails := 0 |} (Forall_nil_2 _)).
Defined.


(** ** Script fragments *)

Section ExpressoFragment_properties.

Import ExpressoFragment.

Lemma eqb_true_iff (A B : FArticyExpressoFragment) :
  eqb A B = true ↔
  bIsInstruction A = bIsInstruction B ∧
  FString_eq (OriginalFragment A) (OriginalFragment B).
Proof.
  unfold eqb. rewrite andb_true_iff, !bool_decide_eq_true. done.
Qed.

(** X25: the hash agrees with [operator==] as far as the engine's string
    hash does: when strings that [FString::operator==] calls equal hash
    alike, fragments that compare equal hash to the same value, whatever
    their parsed text and whatever the hash of booleans is. *)
Theorem FArticyExpressoFragment_hash_respects_eq
    (GetTypeHash_FString : FString → Z) (GetTypeHash_bool : bool → Z)
    (A B : FArticyExpressoFragment) :
  (∀ a b, FString_eq a b → GetTypeHash_FString a = GetTypeHash_FString b) →
  eqb A B = true →
  GetTypeHash GetTypeHash_FString GetTypeHash_bool A
  = GetTypeHash GetTypeHash_FString GetTypeHash_bool B.
Proof.
  intros Hhash [Hflag Htext]%eqb_true_iff. unfold GetTypeHash.
  by rewrite Hflag, (Hhash _ _ Htext).
Qed.

End ExpressoFragment_properties.

(** Two fragments with the same source up to letter case, parsed
    differently, under a string hash that ignores case. *)
Lemma FArticyExpressoFragment_hash_respects_eq_witness :
  ExpressoFragment.GetTypeHash
    (λ s, Z.of_nat (String.length (ToLower s))) (λ b, if b then 1 else 0)%Z
    {| ExpressoFragment.OriginalFragment := "Seen = true";
       ExpressoFragment.ParsedFragment := "seen := true";
       ExpressoFragment.bIsInstruction := true |}
  = ExpressoFragment.GetTypeHash
      (λ s, Z.of_nat (String.length (ToLower s))) (λ b, if b then 1 else 0)%Z
      {| ExpressoFragment.OriginalFragment := "seen = TRUE";
         ExpressoFragment.ParsedFragment := EmptyString;
         ExpressoFragment.bIsInstruction := true |}.
Proof.
  apply FArticyExpressoFragment_hash_respects_eq; [|reflexivity].
  intros a b Hab. unfold FString_eq in Hab. by rewrite Hab.
Defined.
